(** * The Ice Butterfly detector ([ImageRecognition] in src/discord_bot.py)

    A shallow embedding of the class [ImageRecognition] and of its four
    methods.  Python floats are IEEE binary64 numbers, so they are modelled by
    Rocq's primitive floats; Python ints are [Z].  The methods run in a small
    monad that threads the object ([self]), the file system and a trace of the
    calls that reach the outside world, and in which a computation either
    returns or raises.  The OpenCV and [os.path] functions the class calls are
    not part of the repository: they are the fields of a [runtime] record over
    which every general theorem is quantified; the module [SimCV] gives one
    executable runtime, used for concrete runs. *)

From Stdlib Require Import Ascii String ZArith List Bool Lia Floats.
Import ListNotations.
Open Scope Z_scope.

Set Warnings "-inexact-float".

(** ** Python values *)

Definition path := string.
Bind Scope string_scope with path.

(** One BGR pixel of an 8-bit 3-channel image. *)
Definition pixel := (Z * Z * Z)%type.

(** A decoded image: the rows of a numpy array of shape (height, width, 3). *)
Definition image := list (list pixel).

(** [img.shape[0]]: the number of rows. *)
Definition shape0 (img : image) : Z := Z.of_nat (length img).

(** [img.shape[1]]: the number of columns. *)
Definition shape1 (img : image) : Z :=
  match img with
  | [] => 0
  | row :: _ => Z.of_nat (length row)
  end.

(** A location (x, y) as OpenCV reports it. *)
Definition point := (Z * Z)%type.

(** The response surface of [cv2.matchTemplate]. *)
Definition surface := list (list float).

(** The exceptions that can reach an [except Exception] clause. *)
Inductive exn : Type :=
| cv2_error (msg : string)
| TypeError
| ValueError
| OverflowError.

Inductive outcome (A : Type) : Type :=
| Return (a : A)
| Raise (e : exn).
Arguments Return {A} a.
Arguments Raise {A} e.

(** [float(n)] for a Python int: correctly rounded, [OverflowError] when the
    int is too large for a double. *)
Definition py_float (n : Z) : outcome float :=
  let x := SF2Prim (binary_normalize prec emax n 0 false) in
  if is_infinity x then Raise OverflowError else Return x.

(** [int(x)] for a Python float: truncation towards zero; NaN raises
    [ValueError], an infinity [OverflowError]. *)
Definition py_int (x : float) : outcome Z :=
  match Prim2SF x with
  | S754_zero _ => Return 0
  | S754_finite s m e =>
      let v := if 0 <=? e then Z.pos m * 2 ^ e else Z.pos m / 2 ^ (- e) in
      Return (if s then - v else v)
  | S754_infinity _ => Raise OverflowError
  | S754_nan => Raise ValueError
  end.

(** [int(n * x)] for an int [n] and a float [x]. *)
Definition py_int_mul (n : Z) (x : float) : outcome Z :=
  match py_float n with
  | Return fn => py_int (fn * x)%float
  | Raise e => Raise e
  end.

(** ** The object and the world *)

(** The fields of an [ImageRecognition] object.  The logger field is a
    reference to an external object; what is logged is kept in the trace. *)
Record ImageRecognition : Type := mkImageRecognition {
  reference_image_path : path;
  threshold : float;
  reference_image : option image
}.

Inductive level : Type := DEBUG | INFO | WARNING | ERROR.

(** What a method does to the outside world, in order. *)
Inductive event : Type :=
| ev_exists (p : path)
| ev_imread (p : path)
| ev_imwrite (p : path)
| ev_log (lvl : level) (msg : string).

(** Does the event touch the file system? *)
Definition file_event (e : event) : bool :=
  match e with
  | ev_log _ _ => false
  | _ => true
  end.

(** The functions of [os.path] and [cv2] the class calls.  Each may raise;
    [cv2.imread] returns [None] for a file it cannot decode. *)
Record runtime : Type := mkRuntime {
  files : Type;
  os_path_exists : files -> path -> bool;
  cv2_imread : files -> path -> outcome (option image);
  cv2_matchTemplate : image -> image -> outcome surface;
  cv2_minMaxLoc : surface -> outcome (float * float * point * point);
  cv2_resize : image -> Z * Z -> outcome image;
  cv2_rectangle : image -> point -> point -> outcome image;
  cv2_putText : image -> string -> point -> outcome image;
  cv2_imwrite : files -> path -> image -> outcome bool * files
}.

Record state (rt : runtime) : Type := mkState {
  self : ImageRecognition;
  fs : files rt;
  trace : list event
}.
Arguments mkState {rt} self fs trace.
Arguments self {rt} s.
Arguments fs {rt} s.
Arguments trace {rt} s.

(** ** The monad of method bodies *)

Definition Py (rt : runtime) (A : Type) : Type := state rt -> outcome A * state rt.

Definition ret {rt A} (a : A) : Py rt A := fun s => (Return a, s).

Definition bind {rt A B} (m : Py rt A) (k : A -> Py rt B) : Py rt B :=
  fun s =>
    match m s with
    | (Return a, s') => k a s'
    | (Raise e, s') => (Raise e, s')
    end.

Declare Scope py_scope.
Delimit Scope py_scope with py.
Notation "x <- m ;; k" := (bind m (fun x => k))
  (at level 61, m at next level, right associativity) : py_scope.
Notation "' pat <- m ;; k" := (bind m (fun x => match x with pat => k end))
  (at level 61, pat pattern, m at next level, right associativity) : py_scope.
Notation "m ;; k" := (bind m (fun _ => k))
  (at level 61, right associativity) : py_scope.
Open Scope py_scope.

(** [try: body except Exception as e: handler]. *)
Definition try_except {rt A} (body : Py rt A) (handler : exn -> Py rt A) : Py rt A :=
  fun s =>
    match body s with
    | (Return a, s') => (Return a, s')
    | (Raise e, s') => handler e s'
    end.

(** A call that neither reads nor changes the state. *)
Definition lift {rt A} (o : outcome A) : Py rt A := fun s => (o, s).

Definition emit {rt} (e : event) : Py rt unit :=
  fun s => (Return tt, mkState (self s) (fs s) (trace s ++ [e])).

Definition get_self {rt} : Py rt ImageRecognition := fun s => (Return (self s), s).

Definition set_self {rt} (o : ImageRecognition) : Py rt unit :=
  fun s => (Return tt, mkState o (fs s) (trace s)).

(** [self.logger.<lvl>(msg)]. *)
Definition log {rt} (lvl : level) (msg : string) : Py rt unit := emit (ev_log lvl msg).

(** [os.path.exists(p)]. *)
Definition path_exists {rt} (p : path) : Py rt bool :=
  fun s => (Return (os_path_exists rt (fs s) p),
            mkState (self s) (fs s) (trace s ++ [ev_exists p])).

(** [cv2.imread(p)]. *)
Definition imread {rt} (p : path) : Py rt (option image) :=
  fun s => (cv2_imread rt (fs s) p,
            mkState (self s) (fs s) (trace s ++ [ev_imread p])).

(** [cv2.imwrite(p, img)]. *)
Definition imwrite {rt} (p : path) (img : image) : Py rt bool :=
  fun s =>
    let (o, f') := cv2_imwrite rt (fs s) p img in
    (o, mkState (self s) f' (trace s ++ [ev_imwrite p])).

(** [for x in l: acc = body(acc, x)]. *)
Fixpoint for_each {rt A B} (l : list A) (acc : B) (body : B -> A -> Py rt B) : Py rt B :=
  match l with
  | [] => ret acc
  | x :: l' => acc' <- body acc x ;; for_each l' acc' body
  end.

(** ** The class *)

(** What the two detection methods return: (found, confidence, position). *)
Definition detection := (bool * float * option point)%type.

Definition not_found : detection := (false, 0%float, None).

Section ImageRecognition.

Variable rt : runtime.

Definition _load_reference_image : Py rt unit :=
  try_except
    (me <- get_self ;;
     present <- path_exists (reference_image_path me) ;;
     if negb present then
       log ERROR "Reference image not found"
     else
       img <- imread (reference_image_path me) ;;
       me <- get_self ;;
       set_self (mkImageRecognition (reference_image_path me) (threshold me) img) ;;
       match img with
       | None => log ERROR "Failed to load reference image"
       | Some _ => log INFO "Reference image loaded successfully"
       end)
    (fun _ => log ERROR "Error loading reference image").

Definition __init__ (reference_image_path : path) (threshold : float) : Py rt unit :=
  set_self (mkImageRecognition reference_image_path threshold None) ;;
  _load_reference_image.

Definition detect_ice_butterfly (screenshot_path : path) : Py rt detection :=
  try_except
    (me <- get_self ;;
     match reference_image me with
     | None =>
         log WARNING "Reference image not loaded" ;;
         ret not_found
     | Some reference =>
         present <- path_exists screenshot_path ;;
         if negb present then
           log ERROR "Screenshot not found" ;;
           ret not_found
         else
           loaded <- imread screenshot_path ;;
           match loaded with
           | None =>
               log ERROR "Failed to load screenshot" ;;
               ret not_found
           | Some screenshot =>
               me <- get_self ;;
               result <- lift (match reference_image me with
                               | Some r => cv2_matchTemplate rt screenshot r
                               | None => Raise TypeError
                               end) ;;
               '(_, max_val, _, max_loc) <- lift (cv2_minMaxLoc rt result) ;;
               me <- get_self ;;
               if (threshold me <=? max_val)%float then
                 log INFO "Ice Butterfly detected!" ;;
                 ret (true, max_val, Some max_loc)
               else
                 log DEBUG "Ice Butterfly not found." ;;
                 ret (false, max_val, Some max_loc)
           end
     end)
    (fun _ =>
       log ERROR "Error during image recognition" ;;
       ret not_found).

Definition scales : list float := [0.5; 0.75; 1; 1.25; 1.5]%float.

(** The body of the loop over the scales; [acc] is
    [(best_confidence, best_position)] and [continue] returns it unchanged. *)
Definition scale_step (screenshot : image) (acc : float * option point) (scale : float)
  : Py rt (float * option point) :=
  me <- get_self ;;
  match reference_image me with
  | None => lift (Raise TypeError)
  | Some reference =>
      width <- lift (py_int_mul (shape1 reference) scale) ;;
      height <- lift (py_int_mul (shape0 reference) scale) ;;
      if (width <=? 0) || (height <=? 0) then ret acc
      else
        resized_ref <- lift (cv2_resize rt reference (width, height)) ;;
        if (shape0 resized_ref >? shape0 screenshot)
           || (shape1 resized_ref >? shape1 screenshot) then ret acc
        else
          result <- lift (cv2_matchTemplate rt screenshot resized_ref) ;;
          '(_, max_val, _, max_loc) <- lift (cv2_minMaxLoc rt result) ;;
          if (fst acc <? max_val)%float then ret (max_val, Some max_loc)
          else ret acc
  end.

Definition detect_multiple_scales (screenshot_path : path) : Py rt detection :=
  try_except
    (me <- get_self ;;
     match reference_image me with
     | None => ret not_found
     | Some _ =>
         present <- path_exists screenshot_path ;;
         if negb present then ret not_found
         else
           loaded <- imread screenshot_path ;;
           match loaded with
           | None => ret not_found
           | Some screenshot =>
               '(best_confidence, best_position) <-
                  for_each scales (0%float, None) (scale_step screenshot) ;;
               me <- get_self ;;
               if (threshold me <=? best_confidence)%float then
                 log INFO "Ice Butterfly detected (multi-scale)!" ;;
                 ret (true, best_confidence, best_position)
               else
                 log DEBUG "Ice Butterfly not found (multi-scale)." ;;
                 ret (false, best_confidence, best_position)
           end
     end)
    (fun _ =>
       log ERROR "Error during multi-scale detection" ;;
       ret not_found).

(** [position] is what the caller passes: a pair, or the [None] the detection
    methods return where no position was recorded; subscripting [None] raises
    [TypeError]. *)
Definition create_detection_visualization
  (screenshot_path : path) (position : option point) (output_path : path) : Py rt bool :=
  try_except
    (present <- path_exists screenshot_path ;;
     me <- get_self ;;
     if negb present || match reference_image me with None => true | Some _ => false end
     then ret false
     else
       loaded <- imread screenshot_path ;;
       match loaded with
       | None => ret false
       | Some screenshot =>
           me <- get_self ;;
           '(top_left, bottom_right) <-
              lift (match position, reference_image me with
                    | Some (x, y), Some reference =>
                        Return ((x, y), (x + shape1 reference, y + shape0 reference))
                    | _, _ => Raise TypeError
                    end) ;;
           screenshot <- lift (cv2_rectangle rt screenshot top_left bottom_right) ;;
           screenshot <- lift (cv2_putText rt screenshot "Ice Butterfly Found!"
                                 (fst top_left, snd top_left - 10)) ;;
           _ <- imwrite output_path screenshot ;;
           log INFO "Detection visualization saved" ;;
           ret true
       end)
    (fun _ =>
       log ERROR "Error creating detection visualization" ;;
       ret false).

End ImageRecognition.

(** ** An executable runtime

    [SimCV] is a small simulation of the OpenCV and [os.path] calls, following
    the OpenCV documentation, with exact integer sums where OpenCV accumulates
    in floating point.  It is what the concrete runs below execute; the general
    theorems do not depend on it. *)

Module SimCV.

(** A file holds a decodable image or bytes that are no image. *)
Inductive content : Type :=
| Picture (img : image)
| Garbage.

(** A file system: the directories and the regular files that exist. *)
Record disk : Type := mkDisk {
  dirs : list path;
  entries : list (path * content)
}.

Fixpoint lookup (l : list (path * content)) (p : path) : option content :=
  match l with
  | [] => None
  | (q, c) :: l' => if String.eqb q p then Some c else lookup l' p
  end.

Definition exists_ (d : disk) (p : path) : bool :=
  match lookup (entries d) p with
  | Some _ => true
  | None => existsb (String.eqb p) (dirs d)
  end.

Definition read (d : disk) (p : path) : outcome (option image) :=
  match lookup (entries d) p with
  | Some (Picture img) =>
      if (0 <? shape0 img) && (0 <? shape1 img) then Return (Some img) else Return None
  | _ => Return None
  end.

Fixpoint has_slash (p : string) : bool :=
  match p with
  | EmptyString => false
  | String c rest => if Ascii.eqb c "/"%char then true else has_slash rest
  end.

(** The directory part of a path; empty for a bare file name. *)
Fixpoint dirname (p : string) : string :=
  match p with
  | EmptyString => EmptyString
  | String c rest => if has_slash rest then String c (dirname rest) else EmptyString
  end.

(** The part of a path from its last dot on. *)
Fixpoint extension (p : string) : string :=
  match p with
  | EmptyString => EmptyString
  | String c rest =>
      match extension rest with
      | EmptyString => if Ascii.eqb c "."%char then p else EmptyString
      | ext => ext
      end
  end.

Definition writable_extension (p : path) : bool :=
  existsb (String.eqb (extension p)) [".png"; ".jpg"; ".jpeg"; ".bmp"]%string.

(** [cv2.imwrite]: raises when no encoder fits the extension, returns [False]
    when the file cannot be created, [True] after writing it. *)
Definition write (d : disk) (p : path) (img : image) : outcome bool * disk :=
  if negb (writable_extension p) then
    (Raise (cv2_error "could not find a writer for the specified extension"), d)
  else if String.eqb (dirname p) EmptyString || existsb (String.eqb (dirname p)) (dirs d) then
    (Return true, mkDisk (dirs d) ((p, Picture img) :: entries d))
  else (Return false, d).

(** Nearest-neighbour resize to [w] columns and [h] rows. *)
Definition resize (img : image) (dsize : Z * Z) : outcome image :=
  let (w, h) := dsize in
  if (w <=? 0) || (h <=? 0) || (shape0 img <=? 0) || (shape1 img <=? 0) then
    Raise (cv2_error "resize: empty size")
  else
    Return
      (map (fun y =>
              let row := nth (Z.to_nat (Z.of_nat y * shape0 img / h)) img [] in
              map (fun x => nth (Z.to_nat (Z.of_nat x * shape1 img / w)) row (0, 0, 0))
                  (seq 0 (Z.to_nat w)))
           (seq 0 (Z.to_nat h))).

(** The [w] by [h] window of [img] whose top-left corner is (x, y). *)
Definition window (img : image) (x y w h : nat) : list pixel :=
  flat_map (fun row => firstn w (skipn x row)) (firstn h (skipn y img)).

Definition sum3 (l : list pixel) : Z * Z * Z :=
  fold_left (fun '(b, g, r) '(b', g', r') => (b + b', g + g', r + r')) l (0, 0, 0).

Definition dot3 (p q : pixel) : Z :=
  let '(b, g, r) := p in let '(b', g', r') := q in b * b' + g * g' + r * r'.

Fixpoint dot (l1 l2 : list pixel) : Z :=
  match l1, l2 with
  | p :: l1', q :: l2' => dot3 p q + dot l1' l2'
  | _, _ => 0
  end.

(** [n] times the sum of the products of the mean-centred samples. *)
Definition centred (l1 l2 : list pixel) : Z :=
  Z.of_nat (length l1) * dot l1 l2 - dot3 (sum3 l1) (sum3 l2).

Definition float_of_Z (n : Z) : float := SF2Prim (binary_normalize prec emax n 0 false).

(** One entry of the [TM_CCOEFF_NORMED] surface: the correlation coefficient
    of template and window, 0 where the window is constant. *)
Definition ccoeff_normed (templ win : list pixel) : float :=
  let num := centred templ win in
  let den2 := centred templ templ * centred win win in
  if den2 =? 0 then 0%float
  else if num * num =? den2 then (if 0 <? num then 1%float else (-1)%float)
  else (float_of_Z num / sqrt (float_of_Z den2))%float.

(** [cv2.matchTemplate(img, templ, cv2.TM_CCOEFF_NORMED)].  OpenCV exchanges the
    two images when the template is at least as large as the image in both
    dimensions, raises when it is larger in one and smaller in the other, and
    sets every score to 1 for a template of zero variance. *)
Definition matchTemplate (img templ : image) : outcome surface :=
  let smaller := (shape0 img <? shape0 templ) || (shape1 img <? shape1 templ) in
  if (shape0 img <=? 0) || (shape1 img <=? 0) || (shape0 templ <=? 0) || (shape1 templ <=? 0) then
    Raise (cv2_error "matchTemplate: empty image")
  else if smaller && negb ((shape0 img <=? shape0 templ) && (shape1 img <=? shape1 templ)) then
    Raise (cv2_error "_img.size().height <= _templ.size().height && _img.size().width <= _templ.size().width")
  else
    let (img, templ) := if smaller then (templ, img) else (img, templ) in
    let w := Z.to_nat (shape1 templ) in
    let h := Z.to_nat (shape0 templ) in
    let t := window templ 0 0 w h in
    let flat := centred t t =? 0 in
    Return
      (map (fun y =>
              map (fun x => if flat then 1%float else ccoeff_normed t (window img x y w h))
                  (seq 0 (Z.to_nat (shape1 img) - w + 1)))
           (seq 0 (Z.to_nat (shape0 img) - h + 1))).

(** Row-major scan keeping the first minimum and the first maximum. *)
Definition scan_row (y : Z) (row : list float) (acc : float * float * point * point * Z)
  : float * float * point * point * Z :=
  fold_left
    (fun '(mn, mx, mnl, mxl, x) v =>
       let '(mn, mnl) := if (v <? mn)%float then (v, (x, y)) else (mn, mnl) in
       let '(mx, mxl) := if (mx <? v)%float then (v, (x, y)) else (mx, mxl) in
       (mn, mx, mnl, mxl, x + 1))
    row acc.

Fixpoint scan_rows (y : Z) (rows : surface) (acc : float * float * point * point)
  : float * float * point * point :=
  match rows with
  | [] => acc
  | row :: rows' =>
      let '(mn, mx, mnl, mxl, _) := scan_row y row (acc, 0) in
      scan_rows (y + 1) rows' (mn, mx, mnl, mxl)
  end.

Definition minMaxLoc (s : surface) : outcome (float * float * point * point) :=
  match s with
  | (v :: _) :: _ => Return (scan_rows 0 s (v, v, (0, 0), (0, 0)))
  | _ => Raise (cv2_error "minMaxLoc: empty array")
  end.

Definition green : pixel := (0, 255, 0).

(** The outline of the box from [p1] to [p2], one pixel wide. *)
Definition rectangle (img : image) (p1 p2 : point) : outcome image :=
  let '(x1, y1) := p1 in
  let '(x2, y2) := p2 in
  Return
    (map (fun '(y, row) =>
            map (fun '(x, px) =>
                   let x := Z.of_nat x in
                   let y := Z.of_nat y in
                   let inside := (x1 <=? x) && (x <=? x2) && (y1 <=? y) && (y <=? y2) in
                   let edge := (x =? x1) || (x =? x2) || (y =? y1) || (y =? y2) in
                   if inside && edge then green else px)
                (combine (seq 0 (length row)) row))
         (combine (seq 0 (length img)) img)).

(** The glyphs of the caption are not simulated. *)
Definition putText (img : image) (text : string) (org : point) : outcome image :=
  Return img.

Definition rt : runtime :=
  mkRuntime disk exists_ read matchTemplate minMaxLoc resize rectangle putText write.

(** A [w] by [h] image of one colour. *)
Definition solid (w h : nat) (c : pixel) : image := repeat (repeat c w) h.

Definition blue : pixel := (255, 0, 0).
Definition red : pixel := (0, 0, 255).
Definition black : pixel := (0, 0, 0).
Definition white : pixel := (255, 255, 255).

End SimCV.

(** ** Test fixtures *)

(** Row [row] with [patch] written over it from column [x0] on. *)
Definition paste_row (row patch : list pixel) (x0 : nat) : list pixel :=
  firstn x0 row ++ patch ++ skipn (x0 + length patch) row.

(** [canvas] with [patch] pasted unmodified at offset (x0, y0); the patch is
    assumed to fit. *)
Fixpoint paste (canvas patch : image) (x0 y0 : nat) : image :=
  match y0, canvas, patch with
  | _, [], _ => []
  | _, _, [] => canvas
  | O, row :: canvas', prow :: patch' => paste_row row prow x0 :: paste canvas' patch' x0 O
  | S y, row :: canvas', _ => row :: paste canvas' patch x0 y
  end.

(** An object freshly allocated, before [__init__] has run on it. *)
Definition blank : ImageRecognition := mkImageRecognition EmptyString 0%float None.

(** [ImageRecognition(reference_image_path, threshold)] evaluated in a world
    whose file system is [f]. *)
Definition construct (rt : runtime) (reference_image_path : path) (threshold : float)
  (f : files rt) : outcome unit * state rt :=
  __init__ rt reference_image_path threshold (mkState blank f []).

(** The result of a call, without the final state. *)
Definition result_of {rt A} (m : Py rt A) (s : state rt) : outcome A := fst (m s).

(** ** What the claims speak of *)

(** Is the threshold in the interval [0,1]? *)
Definition in_unit_interval (t : float) : bool := ((0 <=? t) && (t <=? 1))%float.

(** The invariant of the data model: the call returns, and its [found] flag
    is true exactly when its confidence is at least the threshold. *)
Definition found_iff_threshold (thr : float) (r : outcome detection) : Prop :=
  match r with
  | Return (found, confidence, _) => found = true <-> (thr <=? confidence)%float = true
  | Raise _ => False
  end.

(** Single-scale matching: the score and the location of the global maximum
    of the response surface. *)
Definition best_match (rt : runtime) (screenshot templ : image) : outcome (float * point) :=
  match cv2_matchTemplate rt screenshot templ with
  | Return result =>
      match cv2_minMaxLoc rt result with
      | Return (_, max_val, _, max_loc) => Return (max_val, max_loc)
      | Raise e => Raise e
      end
  | Raise e => Raise e
  end.

(** What trying one scale factor comes to. *)
Inductive probe : Type :=
| Skipped
| Scored (score : float) (loc : point)
| Failed (e : exn).

(** One scale factor: the reference is resized to [int(w * scale)] by
    [int(h * scale)]; the scale is skipped when one of the two is not positive
    or the resized template exceeds the screenshot in a dimension; otherwise
    it is matched. *)
Definition probe_scale (rt : runtime) (reference screenshot : image) (scale : float) : probe :=
  match py_int_mul (shape1 reference) scale with
  | Raise e => Failed e
  | Return width =>
      match py_int_mul (shape0 reference) scale with
      | Raise e => Failed e
      | Return height =>
          if (width <=? 0) || (height <=? 0) then Skipped
          else
            match cv2_resize rt reference (width, height) with
            | Raise e => Failed e
            | Return resized =>
                if (shape0 resized >? shape0 screenshot)
                   || (shape1 resized >? shape1 screenshot) then Skipped
                else
                  match best_match rt screenshot resized with
                  | Return (v, q) => Scored v q
                  | Raise e => Failed e
                  end
            end
      end
  end.

(** The update of (best_confidence, best_position) by one probe. *)
Definition keep_best (acc : float * option point) (pr : probe) : float * option point :=
  match pr with
  | Scored v q => if (fst acc <? v)%float then (v, Some q) else acc
  | _ => acc
  end.

(** The loop over the probes; a failed probe ends it with its exception. *)
Fixpoint run_probes (l : list probe) (acc : float * option point)
  : outcome (float * option point) :=
  match l with
  | [] => Return acc
  | Failed e :: _ => Raise e
  | pr :: l' => run_probes l' (keep_best acc pr)
  end.

(** The scores and locations of the valid scales, in iteration order. *)
Definition scored (l : list probe) : list (float * point) :=
  flat_map (fun pr => match pr with Scored v q => [(v, q)] | _ => [] end) l.

Definition no_failure (l : list probe) : Prop :=
  forall e, ~ In (Failed e) l.

(** [(best, pos)] is the earliest maximum of the candidates among those above
    0.0, or (0.0, None) when no candidate is above 0.0. *)
Definition first_peak_above_zero (cands : list (float * point))
  (best : float) (pos : option point) : Prop :=
  (forall v q, In (v, q) cands -> (best <? v)%float = false) /\
  ((best = 0%float /\ pos = None /\
    forall v q, In (v, q) cands -> (0 <? v)%float = false) \/
   (exists i q,
      nth_error cands i = Some (best, q) /\ pos = Some q /\ (0 <? best)%float = true /\
      forall j v q', (j < i)%nat -> nth_error cands j = Some (v, q') ->
                     (best <=? v)%float = false)).

(** The reading of "the maximum score over all valid scales together with
    that maximum's position": the call returns a candidate that no other
    candidate exceeds. *)
Definition returns_peak_of (cands : list (float * point)) (r : outcome detection) : Prop :=
  exists found v q,
    r = Return (found, v, Some q) /\ In (v, q) cands /\
    forall v' q', In (v', q') cands -> (v <? v')%float = false.








(** Initialization fails: the constructor raises instead of returning. *)
Definition init_fails (rt : runtime) (rp : path) (thr : float) (f : files rt) : Prop :=
  exists e, fst (construct rt rp thr f) = Raise e.

(** A detector whose reference image is the given one. *)
Definition loaded (rp : path) (thr : float) (reference : image) : ImageRecognition :=
  mkImageRecognition rp thr (Some reference).

Module Fixtures.
Import SimCV.

Definition empty_disk : disk := mkDisk [] [].

(** One black and one white pixel, and the same two exchanged. *)
Definition bw : image := [[black; white]].
Definition wb : image := [[white; black]].

(** A 2 by 2 patch of four colours and a 6 by 5 blue canvas holding it at
    (3, 2). *)
Definition patch : image := [[black; white]; [white; red]].
Definition canvas_with_patch : image := paste (solid 6 5 blue) patch 3 2.

(** The end-to-end scenario: a 32 by 32 red square pasted at (50, 40) on a
    200 by 150 blue canvas. *)
Definition red_square : image := solid 32 32 red.
Definition red_on_blue : image := paste (solid 200 150 blue) red_square 50 40.

Definition one_file (p : path) (img : image) : disk :=
  mkDisk ["/tmp"%string] [(p, Picture img)].

End Fixtures.

(** ** Configuration ([Config] in src/config.py)

    The class attributes are read from the environment when the module is
    imported; a [Config] value is the class after that. *)

Record Config : Type := mkConfig {
  DISCORD_BOT_TOKEN : string;
  DISCORD_CHANNEL_NAME : string;
  MONITORING_INTERVAL : Z;
  STATUS_UPDATE_INTERVAL : Z;
  HEADLESS_MODE : bool;
  BROWSER_TIMEOUT : Z;
  MATCH_THRESHOLD : float;
  REFERENCE_IMAGE_PATH : path;
  GAME_URL : string;
  LOG_LEVEL : string
}.

Definition token_required : string := "DISCORD_BOT_TOKEN is required".
Definition interval_too_small : string := "MONITORING_INTERVAL must be at least 1 second".
Definition threshold_out_of_range : string := "MATCH_THRESHOLD must be between 0 and 1".

(** [Config.validate()]: the list of errors, in the order of the checks. *)
Definition validate (cls : Config) : list string :=
  let errors := [] in
  let errors :=
    if String.eqb (DISCORD_BOT_TOKEN cls) EmptyString then errors ++ [token_required]
    else errors in
  let errors :=
    if MONITORING_INTERVAL cls <? 1 then errors ++ [interval_too_small] else errors in
  let errors :=
    if ((MATCH_THRESHOLD cls <? 0) || (1 <? MATCH_THRESHOLD cls))%float
    then errors ++ [threshold_out_of_range]
    else errors in
  errors.

(** [Config.get_chrome_options()]: the arguments added to the options, in
    order. *)
Definition get_chrome_options (cls : Config) : list string :=
  (if HEADLESS_MODE cls then ["--headless"%string] else [])
  ++ ["--no-sandbox"; "--disable-dev-shm-usage"; "--disable-gpu"; "--disable-extensions";
      "--disable-plugins"; "--disable-images"; "--disable-javascript";
      "--disable-web-security"; "--allow-running-insecure-content";
      "--disable-features=VizDisplayCompositor"; "--window-size=1920,1080";
      "--user-agent=Mozilla/5.0 (Windows NT 10.0; Win64; x64) AppleWebKit/537.36 (KHTML, like Gecko) Chrome/91.0.4472.124 Safari/537.36"]%string.

(** ** Start-up checks ([validate_environment] in src/main.py) *)

(** The two functions of the module [utils] that the start-up calls; the
    module is not among the sources, so they are taken as they come: each may
    change the file system and may raise. *)
Record utils (rt : runtime) : Type := mkUtils {
  setup_logging : string -> files rt -> outcome unit * files rt;
  create_reference_image_if_missing : files rt -> outcome unit * files rt
}.
Arguments setup_logging {rt} u lvl f.
Arguments create_reference_image_if_missing {rt} u f.

(** A call into [utils]: it acts on the file system only. *)
Definition external {rt} (op : files rt -> outcome unit * files rt) : Py rt unit :=
  fun s => let (o, f') := op (fs s) in (o, mkState (self s) f' (trace s)).

(** [for error in config_errors: logger.error(...)]. *)
Fixpoint log_errors {rt} (errors : list string) : Py rt unit :=
  match errors with
  | [] => ret tt
  | error :: errors' => log ERROR (String.append "  - " error) ;; log_errors errors'
  end.

(** The loop over the required files, left by [return False] at the first one
    that does not exist. *)
Fixpoint check_required_files {rt} (required_files : list path) : Py rt bool :=
  match required_files with
  | [] =>
      log INFO "Environment validation successful" ;;
      ret true
  | file_path :: rest =>
      present <- path_exists file_path ;;
      if negb present then
        log ERROR "Required file not found" ;;
        ret false
      else check_required_files rest
  end.

Definition validate_environment (rt : runtime) (u : utils rt) (cls : Config) : Py rt bool :=
  external (setup_logging u (LOG_LEVEL cls)) ;;
  let config_errors := validate cls in
  match config_errors with
  | _ :: _ =>
      log ERROR "Configuration validation failed:" ;;
      log_errors config_errors ;;
      ret false
  | [] =>
      external (create_reference_image_if_missing u) ;;
      check_required_files [REFERENCE_IMAGE_PATH cls]
  end.

(** The detector as [IceButterflyBot.__init__] builds it from the
    configuration. *)
Definition construct_from_config (rt : runtime) (cls : Config) (f : files rt)
  : outcome unit * state rt :=
  construct rt (REFERENCE_IMAGE_PATH cls) (MATCH_THRESHOLD cls) f.

(** Is the event a call of [cv2.imread]? *)
Definition is_imread (e : event) : bool :=
  match e with
  | ev_imread _ => true
  | _ => false
  end.

(** A [utils] whose two functions do nothing, for concrete runs. *)
Definition idle_utils : utils SimCV.rt :=
  mkUtils SimCV.rt (fun _ f => (Return tt, f)) (fun f => (Return tt, f)).

(** The default configuration with a token. *)
Definition default_config (token : string) (thr : float) : Config :=
  mkConfig token "general" 10 600 true 30 thr "ice_butterfly_reference.png"
    "https://taming.io" "INFO".

(** ** The shop monitor ([ShopMonitor] in src/main.py)

    The browser is driven through Selenium, which is not part of the
    repository: its calls, those of [time] and [os], and the functions of the
    missing module [utils] are the fields of a [browser] record.  A call acts
    on the state of everything outside the program (the [page]); the queries
    of the document ([find_elements], [is_displayed], [is_enabled]) read it. *)

Module Shop.

(** The exceptions of this part; all are subclasses of [Exception]. *)
Inductive pyexc : Type :=
| ImportError (name : string)
| AttributeError
| TimeoutException
| WebDriverException (msg : string).

Inductive result (A : Type) : Type :=
| Ok (a : A)
| Err (e : pyexc).
Arguments Ok {A} a.
Arguments Err {A} e.

(** [By.XPATH] or [By.CSS_SELECTOR]. *)
Inductive by_ : Type := XPATH | CSS_SELECTOR.

Record browser : Type := mkBrowser {
  page : Type;
  handle : Type;
  element : Type;
  uc_Chrome : list string -> page -> result handle * page;
  webdriver_Chrome : string -> list string -> page -> result handle * page;
  set_window_size : handle -> Z -> Z -> page -> result unit * page;
  implicitly_wait : handle -> Z -> page -> result unit * page;
  driver_get : handle -> string -> page -> result unit * page;
  wait_for_body : handle -> Z -> page -> result unit * page;
  save_screenshot : handle -> path -> page -> result bool * page;
  driver_quit : handle -> page -> result unit * page;
  execute_script : handle -> string -> element -> page -> result unit * page;
  find_elements : handle -> by_ -> string -> page -> result (list element);
  is_displayed : element -> page -> result bool;
  is_enabled : element -> page -> result bool;
  sleep : Z -> page -> page;
  os_makedirs : path -> page -> result unit * page;
  generate_screenshot_filename : page -> result path * page;
  ensure_directory_exists : path -> page -> result unit * page
}.

(** The fields of a [ShopMonitor] object. *)
Record ShopMonitor (br : browser) : Type := mkShopMonitor {
  driver : option (handle br);
  is_logged_in : bool;
  shop_accessible : bool;
  last_screenshot_path : option path
}.
Arguments mkShopMonitor {br} driver is_logged_in shop_accessible last_screenshot_path.
Arguments driver {br} s.
Arguments is_logged_in {br} s.
Arguments shop_accessible {br} s.
Arguments last_screenshot_path {br} s.

Record world (br : browser) : Type := mkWorld {
  mon : ShopMonitor br;
  outside : page br;
  notes : list event
}.
Arguments mkWorld {br} mon outside notes.
Arguments mon {br} w.
Arguments outside {br} w.
Arguments notes {br} w.

Definition Act (br : browser) (A : Type) : Type := world br -> result A * world br.

Definition aret {br A} (a : A) : Act br A := fun w => (Ok a, w).

Definition raise {br A} (e : pyexc) : Act br A := fun w => (Err e, w).

Definition abind {br A B} (m : Act br A) (k : A -> Act br B) : Act br B :=
  fun w =>
    match m w with
    | (Ok a, w') => k a w'
    | (Err e, w') => (Err e, w')
    end.

Declare Scope act_scope.
Delimit Scope act_scope with act.
Notation "x <- m ;; k" := (abind m (fun x => k))
  (at level 61, m at next level, right associativity) : act_scope.
Notation "m ;; k" := (abind m (fun _ => k))
  (at level 61, right associativity) : act_scope.
#[local] Open Scope act_scope.

(** [try: body except Exception as e: handler]. *)
Definition atry {br A} (body : Act br A) (handler : pyexc -> Act br A) : Act br A :=
  fun w =>
    match body w with
    | (Ok a, w') => (Ok a, w')
    | (Err e, w') => handler e w'
    end.

(** [self.logger.<lvl>(msg)]. *)
Definition note {br} (lvl : level) (msg : string) : Act br unit :=
  fun w => (Ok tt, mkWorld (mon w) (outside w) (notes w ++ [ev_log lvl msg])).

(** A call of the outside. *)
Definition call {br A} (op : page br -> result A * page br) : Act br A :=
  fun w => let (r, pg) := op (outside w) in (r, mkWorld (mon w) pg (notes w)).

(** A query of the outside. *)
Definition ask {br A} (op : page br -> result A) : Act br A :=
  fun w => (op (outside w), w).

(** [time.sleep(seconds)]. *)
Definition time_sleep {br} (seconds : Z) : Act br unit :=
  fun w => (Ok tt, mkWorld (mon w) (sleep br seconds (outside w)) (notes w)).

Definition get_mon {br} : Act br (ShopMonitor br) := fun w => (Ok (mon w), w).

Definition set_mon {br} (m : ShopMonitor br) : Act br unit :=
  fun w => (Ok tt, mkWorld m (outside w) (notes w)).

Definition set_driver {br} (d : option (handle br)) : Act br unit :=
  me <- get_mon ;;
  set_mon (mkShopMonitor d (is_logged_in me) (shop_accessible me) (last_screenshot_path me)).

Definition set_is_logged_in {br} (b : bool) : Act br unit :=
  me <- get_mon ;;
  set_mon (mkShopMonitor (driver me) b (shop_accessible me) (last_screenshot_path me)).

Definition set_shop_accessible {br} (b : bool) : Act br unit :=
  me <- get_mon ;;
  set_mon (mkShopMonitor (driver me) (is_logged_in me) b (last_screenshot_path me)).

Definition set_last_screenshot_path {br} (p : option path) : Act br unit :=
  me <- get_mon ;;
  set_mon (mkShopMonitor (driver me) (is_logged_in me) (shop_accessible me) p).

(** [self.driver.<method>(...)]: an attribute of [None] does not exist. *)
Definition with_driver {br A} (k : handle br -> Act br A) : Act br A :=
  me <- get_mon ;;
  match driver me with
  | Some h => k h
  | None => raise AttributeError
  end.

(** An action that returns whatever the outside does, and one that leaves the
    monitor object as it was. *)
Definition returns {br A} (m : Act br A) : Prop :=
  forall w, exists a, fst (m w) = Ok a.

Definition keeps_mon {br A} (m : Act br A) : Prop :=
  forall w, mon (snd (m w)) = mon w.

(** The names bound at the top level of the module [image_recognition]
    (src/discord_bot.py from line 412 on): its imports and its one class. *)
Definition image_recognition_names : list string :=
  ["cv2"; "np"; "os"; "Tuple"; "Optional"; "logging"; "ImageRecognition"]%string.

(** [from <module> import <name>]. *)
Definition import_from {br} (names : list string) (name : string) : Act br unit :=
  if existsb (String.eqb name) names then aret tt else raise (ImportError name).

(** [selector.startswith("//")]. *)
Definition by_of (selector : string) : by_ :=
  if String.prefix "//" selector then XPATH else CSS_SELECTOR.

Section Monitor.

Variable br : browser.
Variable cls : Config.

(** [login_as_guest] is not modelled: whatever it does to the monitor and to
    the outside, and whatever it returns or raises. *)
Variable login_as_guest : Act br bool.

(** The object a successful [from image_recognition import
    detect_ice_butterfly] would bind, applied to a path. *)
Variable imported_detect_ice_butterfly : path -> Act br bool.

Definition __init__ : Act br unit :=
  set_mon (mkShopMonitor None false false None) ;;
  call (ensure_directory_exists br "screenshots/") ;;
  call (os_makedirs br "screenshots").

Definition setup_driver : Act br bool :=
  atry
    (note INFO "Setting up Chrome driver..." ;;
     let chrome_options := get_chrome_options cls in
     started <-
       atry
         (h <- call (uc_Chrome br chrome_options) ;;
          set_driver (Some h) ;;
          note INFO "Undetected Chrome driver initialized successfully" ;;
          aret true)
         (fun _ =>
            note WARNING "Failed to initialize undetected Chrome driver" ;;
            atry
              (h <- call (webdriver_Chrome br "/usr/bin/chromedriver" chrome_options) ;;
               set_driver (Some h) ;;
               note INFO "Regular Chrome driver initialized successfully" ;;
               aret true)
              (fun _ =>
                 note ERROR "Failed to initialize regular Chrome driver" ;;
                 aret false)) ;;
     if negb started then aret false
     else
       with_driver (fun h => call (set_window_size br h 1920 1080)) ;;
       with_driver (fun h => call (implicitly_wait br h (BROWSER_TIMEOUT cls))) ;;
       aret true)
    (fun _ =>
       note ERROR "Error setting up Chrome driver" ;;
       aret false).

Definition navigate_to_game : Act br bool :=
  atry
    (note INFO "Navigating to the game" ;;
     with_driver (fun h => call (driver_get br h (GAME_URL cls))) ;;
     with_driver (fun h => call (wait_for_body br h (BROWSER_TIMEOUT cls))) ;;
     note INFO "Successfully navigated to taming.io" ;;
     aret true)
    (fun e =>
       match e with
       | TimeoutException =>
           note ERROR "Timeout waiting for taming.io to load" ;;
           aret false
       | _ =>
           note ERROR "Error navigating to taming.io" ;;
           aret false
       end).

(** The inner loop of a button search: the first element that is displayed
    and enabled. *)
Fixpoint first_clickable (elements : list (element br)) : Act br (option (element br)) :=
  match elements with
  | [] => aret None
  | el :: rest =>
      displayed <- ask (is_displayed br el) ;;
      clickable <- (if displayed then ask (is_enabled br el) else aret false) ;;
      if clickable then aret (Some el) else first_clickable rest
  end.

(** The body of the loop over the selectors: the [try] block, which leaves
    the button unset when a query raises ([continue]). *)
Definition try_selector (found_msg selector : string) : Act br (option (element br)) :=
  atry
    (elements <-
       with_driver (fun h => ask (find_elements br h (by_of selector) selector)) ;;
     button <- first_clickable elements ;;
     match button with
     | Some _ => note INFO (String.append found_msg selector)
     | None => aret tt
     end ;;
     aret button)
    (fun _ => aret None).

(** The loop over the selectors of a button search, left at the first
    selector that gives a button. *)
Fixpoint find_button (found_msg : string) (selectors : list string)
  : Act br (option (element br)) :=
  match selectors with
  | [] => aret None
  | selector :: rest =>
      button <- try_selector found_msg selector ;;
      match button with
      | Some el => aret (Some el)
      | None => find_button found_msg rest
      end
  end.

Definition lower_text : string :=
  "translate(text(), 'ABCDEFGHIJKLMNOPQRSTUVWXYZ', 'abcdefghijklmnopqrstuvwxyz')".

Definition xpath_text (tag word : string) : string :=
  String.append "//" (String.append tag (String.append "[contains("
    (String.append lower_text (String.append ", '" (String.append word "')]"))))).

Definition potions_button_selectors : list string :=
  [xpath_text "button" "potion"; xpath_text "button" "pet"; xpath_text "button" "animal";
   xpath_text "button" "creature"; xpath_text "button" "butterfly";
   xpath_text "a" "potion"; xpath_text "a" "pet"; xpath_text "div" "potion";
   xpath_text "span" "potion";
   ".potion-button, .potion-btn, .pet-button, .pet-btn, .animal-button, .animal-btn";
   "#potion-button, #potion-btn, #pet-button, #pet-btn, #animal-button, #animal-btn";
   "[data-testid='potion-button'], [data-testid='pet-button'], [data-testid='animal-button']";
   "button[class*='potion'], button[class*='pet'], button[class*='animal']";
   "a[class*='potion'], a[class*='pet'], a[class*='animal']";
   "div[class*='potion'], div[class*='pet'], div[class*='animal']"]%string.

Definition shop_button_selectors : list string :=
  [xpath_text "button" "shop"; xpath_text "button" "store"; xpath_text "button" "market";
   xpath_text "a" "shop"; xpath_text "a" "store"; xpath_text "div" "shop";
   xpath_text "span" "shop";
   ".shop-button, .shop-btn, .store-button, .store-btn, .market-button, .market-btn";
   "#shop-button, #shop-btn, #store-button, #store-btn, #market-button, #market-btn";
   "[data-testid='shop-button'], [data-testid='store-button'], [data-testid='market-button']";
   "button[class*='shop'], button[class*='store'], button[class*='market']";
   "a[class*='shop'], a[class*='store'], a[class*='market']";
   "div[class*='shop'], div[class*='store'], div[class*='market']"]%string.

(** Scroll to the button, click it, and take the screenshot that follows. *)
Definition click_button (button : element br) (pause : Z) (shot : path) (msg : string)
  : Act br unit :=
  with_driver (fun h => call (execute_script br h "arguments[0].scrollIntoView(true);" button)) ;;
  time_sleep pause ;;
  with_driver (fun h => call (execute_script br h "arguments[0].click();" button)) ;;
  time_sleep 8 ;;
  note INFO msg ;;
  with_driver (fun h => call (save_screenshot br h shot)) ;;
  aret tt.

Definition _navigate_to_potions_section : Act br bool :=
  atry
    (note INFO "Attempting to navigate to potions section..." ;;
     time_sleep 5 ;;
     potions_button <- find_button "Found potions button with selector: "
                         potions_button_selectors ;;
     match potions_button with
     | Some button =>
         click_button button 3 "screenshots/after_potions_access.png"
           "Clicked potions section button" ;;
         aret true
     | None =>
         note INFO "No specific potions section found, staying in main shop" ;;
         aret true
     end)
    (fun _ =>
       note ERROR "Error navigating to potions section" ;;
       aret false).

Definition access_shop : Act br bool :=
  atry
    (note INFO "Attempting to access shop..." ;;
     time_sleep 15 ;;
     with_driver (fun h => call (save_screenshot br h "screenshots/before_shop_access.png")) ;;
     shop_button <- find_button "Found shop button with selector: " shop_button_selectors ;;
     match shop_button with
     | Some button =>
         click_button button 3 "screenshots/after_shop_access.png" "Clicked shop button" ;;
         ok <- _navigate_to_potions_section ;;
         if ok then
           set_shop_accessible true ;;
           aret true
         else
           note WARNING "Could not navigate to potions section" ;;
           set_shop_accessible true ;;
           aret true
     | None =>
         note WARNING "Could not find shop button" ;;
         aret false
     end)
    (fun _ =>
       note ERROR "Error accessing shop" ;;
       aret false).

Definition take_screenshot : Act br (option path) :=
  atry
    (me <- get_mon ;;
     match driver me with
     | None =>
         note ERROR "Driver not initialized" ;;
         aret None
     | Some _ =>
         screenshot_path <- call (generate_screenshot_filename br) ;;
         call (ensure_directory_exists br screenshot_path) ;;
         with_driver (fun h => call (save_screenshot br h screenshot_path)) ;;
         set_last_screenshot_path (Some screenshot_path) ;;
         note DEBUG "Screenshot saved" ;;
         aret (Some screenshot_path)
     end)
    (fun _ =>
       note ERROR "Error taking screenshot" ;;
       aret None).

(** [not screenshot_path]: [None] and the empty string are false. *)
Definition falsy (p : option path) : bool :=
  match p with
  | None => true
  | Some s => String.eqb s EmptyString
  end.

Definition monitor_for_ice_butterfly : Act br bool :=
  atry
    (note INFO "Starting Ice Butterfly monitoring in potion store..." ;;
     ok <- _navigate_to_potions_section ;;
     (if negb ok then
        note WARNING "Could not navigate to potions section, monitoring main shop instead"
      else aret tt) ;;
     time_sleep 5 ;;
     screenshot_path <- take_screenshot ;;
     match screenshot_path with
     | Some p =>
         if falsy screenshot_path then
           note ERROR "Failed to take screenshot for Ice Butterfly detection" ;;
           aret false
         else
           import_from image_recognition_names "detect_ice_butterfly" ;;
           is_found <- imported_detect_ice_butterfly p ;;
           if is_found then
             note INFO "ICE BUTTERFLY DETECTED!" ;;
             aret true
           else
             note DEBUG "Ice Butterfly not found in current screenshot" ;;
             aret false
     | None =>
         note ERROR "Failed to take screenshot for Ice Butterfly detection" ;;
         aret false
     end)
    (fun _ =>
       note ERROR "Error monitoring for Ice Butterfly" ;;
       aret false).

(** The dictionary [get_shop_status] returns, by its four keys. *)
Record shop_status : Type := mkShopStatus {
  driver_active : bool;
  logged_in : bool;
  shop_accessible_ : bool;
  last_screenshot : option path
}.

Definition get_shop_status : Act br shop_status :=
  me <- get_mon ;;
  aret (mkShopStatus (match driver me with Some _ => true | None => false end)
          (is_logged_in me) (shop_accessible me) (last_screenshot_path me)).

Definition restart_session : Act br bool :=
  atry
    (note INFO "Restarting browser session..." ;;
     me <- get_mon ;;
     match driver me with
     | Some h =>
         atry (call (driver_quit br h)) (fun _ => note WARNING "Error closing driver")
     | None => aret tt
     end ;;
     set_driver None ;;
     set_is_logged_in false ;;
     set_shop_accessible false ;;
     ok <- setup_driver ;;
     if negb ok then aret false
     else
       ok <- navigate_to_game ;;
       if negb ok then aret false
       else
         ok <- login_as_guest ;;
         if negb ok then aret false
         else
           ok <- access_shop ;;
           if negb ok then aret false
           else
             note INFO "Browser session restarted successfully" ;;
             aret true)
    (fun _ =>
       note ERROR "Error restarting session" ;;
       aret false).

Definition cleanup : Act br unit :=
  atry
    (me <- get_mon ;;
     match driver me with
     | Some h =>
         call (driver_quit br h) ;;
         set_driver None
     | None => aret tt
     end ;;
     note INFO "Shop monitor cleaned up")
    (fun _ => note ERROR "Error during cleanup").

End Monitor.

(** A simulated browser for concrete runs: the page counts the screenshots
    taken; the driver starts when [launches] holds; every selector finds the
    elements 1, 2, 3, of which the even ones are displayed and all are
    enabled. *)
Definition sim (launches : bool) : browser :=
  mkBrowser nat unit nat
    (fun _ pg => (if launches then Ok tt else Err (WebDriverException "no chrome"), pg))
    (fun _ _ pg => (if launches then Ok tt else Err (WebDriverException "no chromedriver"), pg))
    (fun _ _ _ pg => (Ok tt, pg))
    (fun _ _ pg => (Ok tt, pg))
    (fun _ _ pg => (Ok tt, pg))
    (fun _ _ pg => (Ok tt, pg))
    (fun _ _ pg => (Ok true, S pg))
    (fun _ pg => (Ok tt, pg))
    (fun _ _ _ pg => (Ok tt, pg))
    (fun _ _ _ _ => Ok [1; 2; 3]%nat)
    (fun el _ => Ok (Nat.even el))
    (fun _ _ => Ok true)
    (fun _ pg => pg)
    (fun _ pg => (Ok tt, pg))
    (fun pg => (Ok "screenshots/screenshot.png"%string, pg))
    (fun _ pg => (Ok tt, pg)).

(** A monitor of the simulated browser, with or without a driver, on a page
    where no screenshot has been taken. *)
Definition sim_world (launches has_driver : bool) : world (sim launches) :=
  @mkWorld (sim launches)
    (@mkShopMonitor (sim launches) (if has_driver then Some tt else None) false false None)
    0%nat [].

End Shop.

(** ** The bot ([IceButterflyBot] in src/discord_bot.py)

    The monitoring loop and the two commands that start and stop it.  Discord
    is outside the repository: sending is a call on the state of the chat,
    which may raise.  The bot owns a shop monitor and a detector; its methods
    run on a world made of the bot's fields, the world of the monitor, the
    state of the detector, and the chat. *)

Module Bot.

Inductive botexc : Type :=
| ShopError (e : Shop.pyexc)
| VisionError (e : exn)
| NoneTypeError
| TaskAlreadyRunning
| ChatError (msg : string).

Inductive res (A : Type) : Type :=
| Done (a : A)
| Fail (e : botexc).
Arguments Done {A} a.
Arguments Fail {A} e.

(** A [discord.Embed]: title, description and the fields added to it. *)
Record embed : Type := mkEmbed {
  title : string;
  description : string;
  fields : list (string * string)
}.

(** What is sent. *)
Inductive payload : Type :=
| Text (s : string)
| Rich (e : embed)
| File (p : path).

Record discord (rt : runtime) : Type := mkDiscord {
  chat : Type;
  guild : Type;
  channel : Type;
  guilds : chat -> list guild;
  (** [discord.utils.get(guild.channels, name=...)] *)
  utils_get : guild -> string -> option channel;
  (** [hasattr(channel, 'send')] *)
  can_send : channel -> bool;
  channel_send : channel -> payload -> chat -> res unit * chat;
  ctx_send : payload -> chat -> res unit * chat;
  (** [datetime.now()], in seconds *)
  now : chat -> Z;
  (** [os.path.getsize] *)
  getsize : files rt -> path -> outcome Z;
  (** [f"{x:.3f}"] *)
  fmt3 : float -> string;
  (** [str] of an int and of a float *)
  str_int : Z -> string;
  str_float : float -> string;
  (** the functions of the missing module [utils] *)
  format_duration : Z -> string;
  get_timestamp : chat -> string
}.

(** The bot's own fields, and whether its two background loops are running. *)
Record bot : Type := mkBot {
  monitoring_active : bool;
  start_time : option Z;
  checks_performed : Z;
  monitoring_task_running : bool;
  status_update_task_running : bool
}.

Record world (rt : runtime) (br : Shop.browser) (dc : discord rt) : Type := mkWorld {
  me : bot;
  shop : Shop.world br;
  vision : state rt;
  room : chat rt dc;
  journal : list event
}.
Arguments mkWorld {rt br dc} me shop vision room journal.
Arguments me {rt br dc} w.
Arguments shop {rt br dc} w.
Arguments vision {rt br dc} w.
Arguments room {rt br dc} w.
Arguments journal {rt br dc} w.

Section Monad.

Variable rt : runtime.
Variable br : Shop.browser.
Variable dc : discord rt.

Definition B (A : Type) : Type := world rt br dc -> res A * world rt br dc.

Definition bret {A} (a : A) : B A := fun w => (Done a, w).

Definition fail {A} (e : botexc) : B A := fun w => (Fail e, w).

Definition bbind {A C} (m : B A) (k : A -> B C) : B C :=
  fun w =>
    match m w with
    | (Done a, w') => k a w'
    | (Fail e, w') => (Fail e, w')
    end.

(** [try: body except Exception as e: handler]. *)
Definition btry {A} (body : B A) (handler : botexc -> B A) : B A :=
  fun w =>
    match body w with
    | (Done a, w') => (Done a, w')
    | (Fail e, w') => handler e w'
    end.

Definition get_bot : B bot := fun w => (Done (me w), w).

Definition set_bot (b : bot) : B unit :=
  fun w => (Done tt, mkWorld b (shop w) (vision w) (room w) (journal w)).

(** [self.logger.<lvl>(msg)]. *)
Definition blog (lvl : level) (msg : string) : B unit :=
  fun w => (Done tt, mkWorld (me w) (shop w) (vision w) (room w) (journal w ++ [ev_log lvl msg])).

(** A method of [self.monitor]. *)
Definition in_shop {A} (m : Shop.Act br A) : B A :=
  fun w =>
    let (r, s') := m (shop w) in
    (match r with Shop.Ok a => Done a | Shop.Err e => Fail (ShopError e) end,
     mkWorld (me w) s' (vision w) (room w) (journal w)).

(** A method of [self.image_recognition]. *)
Definition in_vision {A} (m : Py rt A) : B A :=
  fun w =>
    let (r, s') := m (vision w) in
    (match r with Return a => Done a | Raise e => Fail (VisionError e) end,
     mkWorld (me w) (shop w) s' (room w) (journal w)).

(** A call of Discord. *)
Definition in_chat {A} (op : chat rt dc -> res A * chat rt dc) : B A :=
  fun w =>
    let (r, c') := op (room w) in
    (r, mkWorld (me w) (shop w) (vision w) c' (journal w)).

End Monad.

Arguments bret {rt br dc A} a.
Arguments fail {rt br dc A} e.
Arguments bbind {rt br dc A C} m k.
Arguments btry {rt br dc A} body handler.
Arguments get_bot {rt br dc}.
Arguments set_bot {rt br dc} b.
Arguments blog {rt br dc} lvl msg.
Arguments in_shop {rt br dc A} m.
Arguments in_vision {rt br dc A} m.
Arguments in_chat {rt br dc A} op.

Declare Scope bot_scope.
Delimit Scope bot_scope with bot.
Notation "x <- m ;; k" := (bbind m (fun x => k))
  (at level 61, m at next level, right associativity) : bot_scope.
Notation "m ;; k" := (bbind m (fun _ => k))
  (at level 61, right associativity) : bot_scope.
#[local] Open Scope bot_scope.

Section Methods.

Variable rt : runtime.
Variable br : Shop.browser.
Variable dc : discord rt.
Variable cls : Config.
Variable login_as_guest : Shop.Act br bool.
Variable imported_detect_ice_butterfly : path -> Shop.Act br bool.

(** The loop over the guilds shared by [send_embed] and the sending of the
    screenshot: the first guild that has a channel of the configured name
    which can send receives the payload, and the loop ends. *)
Fixpoint send_to_first (gs : list (guild rt dc)) (what : payload) : B rt br dc unit :=
  match gs with
  | [] => bret tt
  | g :: rest =>
      match utils_get rt dc g (DISCORD_CHANNEL_NAME cls) with
      | Some ch =>
          if can_send rt dc ch then in_chat (channel_send rt dc ch what)
          else send_to_first rest what
      | None => send_to_first rest what
      end
  end.

Definition send_embed (e : embed) : B rt br dc unit :=
  fun w => send_to_first (guilds rt dc (room w)) (Rich e) w.

Definition send_error_message (message : string) : B rt br dc unit :=
  send_embed (mkEmbed "Error" message []).

Definition send_success_message (message : string) : B rt br dc unit :=
  send_embed (mkEmbed "Success" message []).

(** [os.path.exists(p)] on a value that may be [None]. *)
Definition exists_or_none (p : option path) : B rt br dc bool :=
  match p with
  | Some q => in_vision (path_exists q)
  | None => fail NoneTypeError
  end.

Definition send_butterfly_found_message (confidence : float) (position : option point)
  (screenshot_path : option path) : B rt br dc unit :=
  xy <- match position with
        | Some xy => bret xy
        | None => fail NoneTypeError
        end ;;
  stamp <- (fun w => (Done (get_timestamp rt dc (room w)), w)) ;;
  send_embed
    (mkEmbed "ICE BUTTERFLY FOUND!" "The Ice Butterfly has been detected in the shop!"
       [("Confidence", fmt3 rt dc confidence);
        ("Position",
         String.append "(" (String.append (str_int rt dc (fst xy))
           (String.append ", " (String.append (str_int rt dc (snd xy)) ")"))));
        ("Time", stamp);
        ("Action Required", "Go to taming.io shop immediately!")]%string) ;;
  present <- exists_or_none screenshot_path ;;
  small <- (if present then
              match screenshot_path with
              | Some q =>
                  fun w =>
                    (match getsize rt dc (fs (vision w)) q with
                     | Return n => Done (n <? 8000000)
                     | Raise e => Fail (VisionError e)
                     end, w)
              | None => fail NoneTypeError
              end
            else bret false) ;;
  if small then
    btry
      (match screenshot_path with
       | Some q => fun w => send_to_first (guilds rt dc (room w)) (File q) w
       | None => fail NoneTypeError
       end)
      (fun _ => blog ERROR "Failed to send screenshot")
  else bret tt.

(** [self.monitoring_task.start()] and its like: starting a loop that is
    running raises. *)
Definition start_monitoring_task : B rt br dc unit :=
  b <- get_bot ;;
  if monitoring_task_running b then fail TaskAlreadyRunning
  else set_bot (mkBot (monitoring_active b) (start_time b) (checks_performed b) true
                  (status_update_task_running b)).

Definition start_status_update_task : B rt br dc unit :=
  b <- get_bot ;;
  if status_update_task_running b then fail TaskAlreadyRunning
  else set_bot (mkBot (monitoring_active b) (start_time b) (checks_performed b)
                  (monitoring_task_running b) true).

(** [stop()] and [cancel()] of the two loops. *)
Definition halt_monitoring_task : B rt br dc unit :=
  b <- get_bot ;;
  set_bot (mkBot (monitoring_active b) (start_time b) (checks_performed b) false
             (status_update_task_running b)).

Definition halt_status_update_task : B rt br dc unit :=
  b <- get_bot ;;
  set_bot (mkBot (monitoring_active b) (start_time b) (checks_performed b)
             (monitoring_task_running b) false).

Definition set_monitoring_active (v : bool) : B rt br dc unit :=
  b <- get_bot ;;
  set_bot (mkBot v (start_time b) (checks_performed b) (monitoring_task_running b)
             (status_update_task_running b)).

Definition set_start_time (t : option Z) : B rt br dc unit :=
  b <- get_bot ;;
  set_bot (mkBot (monitoring_active b) t (checks_performed b) (monitoring_task_running b)
             (status_update_task_running b)).

Definition count_check : B rt br dc unit :=
  b <- get_bot ;;
  set_bot (mkBot (monitoring_active b) (start_time b) (checks_performed b + 1)
             (monitoring_task_running b) (status_update_task_running b)).

(** The first run of the loop: the session is set up step by step; the result
    says whether the run goes on to the check ([false] after a [return]). *)
Definition start_session : B rt br dc bool :=
  set_monitoring_active true ;;
  t <- (fun w => (Done (now rt dc (room w)), w)) ;;
  set_start_time (Some t) ;;
  blog INFO "Monitoring task started" ;;
  ok <- in_shop (Shop.setup_driver br cls) ;;
  if negb ok then
    send_error_message "Failed to setup browser driver" ;; bret false
  else
    ok <- in_shop (Shop.navigate_to_game br cls) ;;
    if negb ok then
      send_error_message "Failed to navigate to taming.io" ;; bret false
    else
      ok <- in_shop login_as_guest ;;
      if negb ok then
        send_error_message "Failed to login as guest" ;; bret false
      else
        ok <- in_shop (Shop.access_shop br) ;;
        if negb ok then
          send_error_message "Failed to access shop" ;; bret false
        else
          send_success_message "Successfully connected to taming.io shop!" ;;
          bret true.

(** One run of the loop [monitoring_task]. *)
Definition monitoring_task : B rt br dc unit :=
  btry
    (b <- get_bot ;;
     go_on <- (if negb (monitoring_active b) then start_session else bret true) ;;
     if negb go_on then bret tt
     else
       is_found <- in_shop (Shop.monitor_for_ice_butterfly br imported_detect_ice_butterfly) ;;
       count_check ;;
       if is_found then
         screenshot_path <-
           in_shop (Shop.abind Shop.get_mon
                      (fun m => Shop.aret (Shop.last_screenshot_path m))) ;;
         match screenshot_path with
         | Some q =>
             if Shop.falsy screenshot_path then
               send_butterfly_found_message 0.9 (Some (0, 0)) None
             else
               d <- in_vision (detect_ice_butterfly rt q) ;;
               let '(_, confidence, position) := d in
               send_butterfly_found_message confidence position (Some q) ;;
               halt_monitoring_task ;;
               set_monitoring_active false ;;
               blog INFO "Ice Butterfly found! Monitoring stopped."
         | None => send_butterfly_found_message 0.9 (Some (0, 0)) None
         end
       else blog DEBUG "Ice Butterfly not found in potion store")
    (fun _ =>
       blog ERROR "Error in monitoring task" ;;
       send_error_message "Monitoring error").

(** The command [!start_monitoring]. *)
Definition start_monitoring : B rt br dc unit :=
  b <- get_bot ;;
  if monitoring_active b then
    in_chat (ctx_send rt dc (Text "Monitoring is already active!"))
  else
    in_chat (ctx_send rt dc (Text "Starting Ice Butterfly monitoring...")) ;;
    start_monitoring_task ;;
    start_status_update_task ;;
    in_chat (ctx_send rt dc
               (Rich (mkEmbed "Ice Butterfly Monitor Started"
                        "Bot is now monitoring taming.io shop for Ice Butterfly"
                        [("Configuration",
                          String.append "Check interval: "
                            (String.append (str_int rt dc (MONITORING_INTERVAL cls))
                               (String.append "s, match threshold: "
                                  (str_float rt dc (MATCH_THRESHOLD cls)))))]%string))).

(** The command [!stop_monitoring]. *)
Definition stop_monitoring : B rt br dc unit :=
  b <- get_bot ;;
  if negb (monitoring_active b) then
    in_chat (ctx_send rt dc (Text "Monitoring is not active!"))
  else
    halt_monitoring_task ;;
    halt_status_update_task ;;
    b <- get_bot ;;
    started <- match start_time b with
               | Some t => bret t
               | None => fail NoneTypeError
               end ;;
    t <- (fun w => (Done (now rt dc (room w)), w)) ;;
    let duration := format_duration rt dc (t - started) in
    b <- get_bot ;;
    in_chat (ctx_send rt dc
               (Rich (mkEmbed "Ice Butterfly Monitor Stopped"
                        (String.append "Monitoring stopped after " duration)
                        [("Statistics",
                          String.append "Total checks performed: "
                            (str_int rt dc (checks_performed b)))]%string))) ;;
    in_shop (Shop.cleanup br).

End Methods.

(** A simulated Discord for running the bot: a guild is the list of its
    channels (name, can it send), the chat is the list of what was sent and
    where, oldest first; sending never fails. *)
Definition sim (rt : runtime) (servers : list (list (string * bool))) : discord rt :=
  mkDiscord rt (list (string * payload)) (list (string * bool)) (string * bool)
    (fun _ => servers)
    (fun g name => find (fun c => String.eqb (fst c) name) g)
    snd
    (fun ch what c => (Done tt, c ++ [(fst ch, what)]))
    (fun what c => (Done tt, c ++ [("ctx"%string, what)]))
    (fun c => Z.of_nat (length c))
    (fun _ _ => Return 0)
    (fun _ => "0.000"%string)
    (fun _ => "0"%string)
    (fun _ => "0.0"%string)
    (fun _ => "0s"%string)
    (fun _ => "now"%string).

(** A bot whose session is started: flag set, both loops running, on the
    simulated browser and an empty disk, in a server with one channel. *)
Definition sim_world (launches : bool)
  : world SimCV.rt (Shop.sim launches) (sim SimCV.rt [[("general"%string, true)]]) :=
  @mkWorld SimCV.rt (Shop.sim launches) (sim SimCV.rt [[("general"%string, true)]])
    (mkBot true (Some 0) 0 true true)
    (Shop.sim_world launches true)
    (@mkState SimCV.rt blank (SimCV.mkDisk [] []) [])
    [] [].

End Bot.

(** Does the guild have a channel of the given name that can send? *)
Definition reachable {rt} (dc : Bot.discord rt) (name : string) (g : Bot.guild rt dc)
  : option (Bot.channel rt dc) :=
  match Bot.utils_get rt dc g name with
  | Some ch => if Bot.can_send rt dc ch then Some ch else None
  | None => None
  end.

(** The first channel that a list of guilds reaches. *)
Fixpoint first_reachable {rt} (dc : Bot.discord rt) (name : string)
  (gs : list (Bot.guild rt dc)) : option (Bot.channel rt dc) :=
  match gs with
  | [] => None
  | g :: rest =>
      match reachable dc name g with
      | Some ch => Some ch
      | None => first_reachable dc name rest
      end
  end.

(** ** The dashboard's log endpoint ([get_logs] in src/main.py)

    A Python [str] is a list of code points.  The log file is what
    [os.path.exists] and [open(...).readlines()] make of it: missing, not
    readable (the exception is caught and reported), or a list of lines. *)

Module Web.

Definition str : Type := list N.

Definition of_string (s : string) : str :=
  map N_of_ascii (list_ascii_of_string s).

(** [str.isspace] on one code point: the white space of Unicode. *)
Definition isspace (c : N) : bool :=
  ((9 <=? c) && (c <=? 13) || (28 <=? c) && (c <=? 32) || (c =? 133) || (c =? 160)
   || (c =? 5760) || (8192 <=? c) && (c <=? 8202) || (c =? 8232) || (c =? 8233)
   || (c =? 8239) || (c =? 8287) || (c =? 12288))%N.

Fixpoint lstrip (s : str) : str :=
  match s with
  | [] => []
  | c :: rest => if isspace c then lstrip rest else s
  end.

Definition rstrip (s : str) : str := rev (lstrip (rev s)).

(** [s.strip()] *)
Definition strip (s : str) : str := rstrip (lstrip s).

(** [l[-n:]] for a positive [n] *)
Definition last_n {A} (n : nat) (l : list A) : list A :=
  skipn (length l - n) l.

(** the truth value of a [str] *)
Definition truthy (s : str) : bool :=
  match s with [] => false | _ :: _ => true end.

Inductive log_file : Type :=
| Missing
| Unreadable (why : str)
| Lines (lines : list str).

(** The list under the key ["logs"] of the answer. *)
Definition get_logs (bot_log : log_file) : list str :=
  match bot_log with
  | Lines lines =>
      map strip (filter (fun line => truthy (strip line)) (last_n 100 lines))
  | Unreadable why => [of_string "Error reading log file: " ++ why]
  | Missing => [of_string "No log file found"]
  end.

End Web.

(** * Properties *)

(** ** The order on floats

    Comparisons of binary64 numbers are not a total order (NaN compares false
    with everything), so the facts the loop invariants need are proved on the
    specification of the comparisons. *)

Ltac sf_cases :=
  unfold SFltb, SFleb, SFcompare;
  repeat match goal with
         | x : spec_float |- _ => destruct x
         end;
  repeat match goal with
         | s : bool |- _ => destruct s
         end;
  simpl; try congruence;
  repeat match goal with
         | |- context [Pos.compare_cont Eq ?a ?b] =>
             change (Pos.compare_cont Eq a b) with (Pos.compare a b);
             destruct (Pos.compare_spec a b)
         | |- context [Z.compare ?a ?b] => destruct (Z.compare_spec a b)
         end;
  simpl; try congruence; try lia.

Lemma SFltb_irrefl x : SFltb x x = false.
Proof. sf_cases. Qed.

Lemma SFltb_SFleb x y : SFltb x y = true -> SFleb x y = true.
Proof. sf_cases. Qed.

Lemma SFltb_not_SFleb x y : SFltb x y = true -> SFleb y x = false.
Proof. sf_cases. Qed.

Lemma SFleb_SFltb_trans x y z : SFleb x y = true -> SFltb y z = true -> SFltb x z = true.
Proof. sf_cases. Qed.

Lemma SFltb_overtakes a u v : SFltb a u = false -> SFltb a v = true -> SFleb v u = false.
Proof. sf_cases. Qed.

Section FloatOrder.

Open Scope float_scope.

Lemma ltb_irrefl (x : float) : (x <? x) = false.
Proof. rewrite ltb_spec. apply SFltb_irrefl. Qed.

Lemma ltb_leb (x y : float) : (x <? y) = true -> (x <=? y) = true.
Proof. rewrite ltb_spec, leb_spec. apply SFltb_SFleb. Qed.

Lemma ltb_not_leb (x y : float) : (x <? y) = true -> (y <=? x) = false.
Proof. rewrite ltb_spec, leb_spec. apply SFltb_not_SFleb. Qed.

Lemma leb_ltb_trans (x y z : float) : (x <=? y) = true -> (y <? z) = true -> (x <? z) = true.
Proof. rewrite !ltb_spec, leb_spec. apply SFleb_SFltb_trans. Qed.

(** When [v] beats the running best [a], it is strictly above everything
    that did not beat [a]. *)
Lemma ltb_overtakes (a u v : float) :
  (a <? u) = false -> (a <? v) = true -> (v <=? u) = false.
Proof. rewrite !ltb_spec, leb_spec. apply SFltb_overtakes. Qed.

Lemma leb_false_ltb_false (x y : float) : (x <=? y) = false -> (x <? y) = false.
Proof.
  intros H. destruct (x <? y) eqn:E; [|reflexivity].
  apply ltb_leb in E. congruence.
Qed.

End FloatOrder.

(** ** Scaled dimensions

    The products of an image dimension and a scale factor are exact in
    binary64, and [int] truncates them. *)

Example scaled_dimensions_of_32 :
  map (py_int_mul 32) scales = [Return 16; Return 24; Return 32; Return 40; Return 48].
Proof. vm_compute. reflexivity. Qed.

Example scaled_dimensions_of_1 :
  map (py_int_mul 1) scales = [Return 0; Return 0; Return 1; Return 1; Return 1].
Proof. vm_compute. reflexivity. Qed.

Example scaled_dimensions_of_7 :
  map (py_int_mul 7) scales = [Return 3; Return 5; Return 7; Return 8; Return 10].
Proof. vm_compute. reflexivity. Qed.

Example int_truncates_towards_zero :
  py_int (-2.75)%float = Return (-2) /\ py_int 2.75%float = Return 2 /\
  py_int nan = Raise ValueError /\ py_int infinity = Raise OverflowError.
Proof. vm_compute. repeat split. Qed.

(** ** How the methods run *)

Ltac py_unfold :=
  unfold result_of, construct, __init__, _load_reference_image, detect_ice_butterfly,
    detect_multiple_scales, create_detection_visualization, try_except, bind, ret, lift,
    log, emit, get_self, set_self, path_exists, imread, imwrite, not_found in *;
  simpl in *.

Ltac innermost x :=
  lazymatch x with
  | context [match ?z with _ => _ end] => innermost z
  | negb ?z => innermost z
  | orb ?z _ => innermost z
  | andb ?z _ => innermost z
  | _ => x
  end.

(** Decide the next test of a method body: by a hypothesis that fixes it, or
    by cases. *)
Ltac py_case :=
  match goal with
  | |- context [match ?x with _ => _ end] =>
      let y := innermost x in
      first [ match goal with H : y = _ |- _ => rewrite H end
            | destruct y eqn:? ];
      simpl in *
  end.

Ltac py_run := py_unfold; repeat py_case.

Section Runs.

Variable rt : runtime.

Lemma scale_step_probe (screenshot reference : image) (acc : float * option point)
  (scale : float) (s : state rt) :
  reference_image (self s) = Some reference ->
  scale_step rt screenshot acc scale s
  = (match probe_scale rt reference screenshot scale with
     | Failed e => Raise e
     | pr => Return (keep_best acc pr)
     end, s).
Proof.
  intros Href. unfold scale_step, probe_scale, best_match, bind, get_self, lift, ret.
  rewrite Href.
  destruct (py_int_mul (shape1 reference) scale) as [width|]; [|reflexivity].
  destruct (py_int_mul (shape0 reference) scale) as [height|]; [|reflexivity].
  destruct ((width <=? 0) || (height <=? 0)); [reflexivity|].
  destruct (cv2_resize rt reference (width, height)) as [resized|]; [|reflexivity].
  destruct ((shape0 resized >? shape0 screenshot) || (shape1 resized >? shape1 screenshot));
    [reflexivity|].
  destruct (cv2_matchTemplate rt screenshot resized) as [result|]; [|reflexivity].
  destruct (cv2_minMaxLoc rt result) as [[[[mn mx] mnl] mxl]|]; [|reflexivity].
  simpl. destruct (fst acc <? mx)%float; reflexivity.
Qed.

Lemma for_each_probes (screenshot reference : image) (l : list float)
  (acc : float * option point) (s : state rt) :
  reference_image (self s) = Some reference ->
  for_each l acc (scale_step rt screenshot) s
  = (run_probes (map (probe_scale rt reference screenshot) l) acc, s).
Proof.
  intros Href. revert acc. induction l as [|scale l IH]; intros acc; [reflexivity|].
  simpl. unfold bind. rewrite (scale_step_probe _ _ _ _ _ Href).
  destruct (probe_scale rt reference screenshot scale); simpl; auto.
Qed.

#[local] Arguments for_each : simpl never.
#[local] Opaque scales.

(** The single-scale method, path by path. *)
Lemma detect_unavailable (p : path) (s : state rt) :
  reference_image (self s) = None ->
  detect_ice_butterfly rt p s
  = (Return not_found,
     mkState (self s) (fs s) (trace s ++ [ev_log WARNING "Reference image not loaded"])).
Proof. intros H. py_run. reflexivity. Qed.

Lemma detect_missing_screenshot (p : path) (s : state rt) :
  os_path_exists rt (fs s) p = false ->
  result_of (detect_ice_butterfly rt p) s = Return not_found.
Proof. intros H. py_run; reflexivity. Qed.

Lemma detect_undecodable_screenshot (p : path) (s : state rt) :
  cv2_imread rt (fs s) p = Return None ->
  result_of (detect_ice_butterfly rt p) s = Return not_found.
Proof.
  intros H. py_run; reflexivity.
Qed.

Lemma detect_matcher_raises (p : path) (s : state rt) reference screenshot e :
  reference_image (self s) = Some reference ->
  cv2_imread rt (fs s) p = Return (Some screenshot) ->
  cv2_matchTemplate rt screenshot reference = Raise e ->
  result_of (detect_ice_butterfly rt p) s = Return not_found.
Proof.
  intros Href Hread Hmatch. py_run; reflexivity.
Qed.

(** Past the three guards the method returns what the matcher reports,
    whatever the shapes of the two images. *)
Lemma detect_returns_peak (p : path) (s : state rt) reference screenshot v q :
  reference_image (self s) = Some reference ->
  os_path_exists rt (fs s) p = true ->
  cv2_imread rt (fs s) p = Return (Some screenshot) ->
  best_match rt screenshot reference = Return (v, q) ->
  result_of (detect_ice_butterfly rt p) s
  = Return ((threshold (self s) <=? v)%float, v, Some q).
Proof.
  intros Href Hex Hread Hbest. unfold best_match in Hbest.
  py_run; try discriminate; injection Hbest as <- <-;
    match goal with H : (_ <=? _)%float = _ |- _ => rewrite H end; reflexivity.
Qed.

(** The multi-scale method past its guards. *)
Lemma multi_runs_probes (p : path) (s : state rt) reference screenshot :
  reference_image (self s) = Some reference ->
  os_path_exists rt (fs s) p = true ->
  cv2_imread rt (fs s) p = Return (Some screenshot) ->
  result_of (detect_multiple_scales rt p) s
  = match run_probes (map (probe_scale rt reference screenshot) scales) (0%float, None) with
    | Return (best, pos) => Return ((threshold (self s) <=? best)%float, best, pos)
    | Raise _ => Return not_found
    end.
Proof.
  intros Href Hex Hread. py_unfold. rewrite Href. simpl. rewrite Hex. simpl.
  rewrite Hread. simpl.
  rewrite (for_each_probes screenshot reference) by exact Href.
  destruct (run_probes _ _) as [[best pos]|e]; simpl; [|reflexivity].
  destruct (threshold (self s) <=? best)%float; reflexivity.
Qed.

(** Before its loop the multi-scale method returns the null result. *)
Lemma multi_short_circuit (p : path) (s : state rt) :
  reference_image (self s) = None \/ os_path_exists rt (fs s) p = false
  \/ cv2_imread rt (fs s) p = Return None \/ (exists e, cv2_imread rt (fs s) p = Raise e) ->
  result_of (detect_multiple_scales rt p) s = Return not_found.
Proof.
  intros H. py_unfold.
  destruct (reference_image (self s)) as [reference|]; simpl; [|reflexivity].
  destruct (os_path_exists rt (fs s) p); simpl; [|reflexivity].
  destruct H as [H|[H|[H|[e H]]]]; try discriminate; rewrite H; reflexivity.
Qed.

End Runs.

(** ** The invariant between [found] and the confidence *)

Section Invariant.

Variable rt : runtime.

Lemma single_found_iff (p : path) (s : state rt) :
  (0 <? threshold (self s))%float = true ->
  found_iff_threshold (threshold (self s)) (result_of (detect_ice_butterfly rt p) s).
Proof.
  intros Hpos. apply ltb_not_leb in Hpos. unfold found_iff_threshold.
  py_run; try (split; congruence).
Qed.

Lemma multi_found_iff (p : path) (s : state rt) :
  (0 <? threshold (self s))%float = true ->
  found_iff_threshold (threshold (self s)) (result_of (detect_multiple_scales rt p) s).
Proof.
  intros Hpos. apply ltb_not_leb in Hpos.
  assert (Hnull : found_iff_threshold (threshold (self s)) (Return not_found)).
  { simpl. split; congruence. }
  destruct (reference_image (self s)) as [reference|] eqn:Href;
    [|rewrite multi_short_circuit by auto; exact Hnull].
  destruct (os_path_exists rt (fs s) p) eqn:Hex;
    [|rewrite multi_short_circuit by auto; exact Hnull].
  destruct (cv2_imread rt (fs s) p) as [[screenshot|]|e] eqn:Hread;
    [|rewrite multi_short_circuit by auto; exact Hnull
     |rewrite multi_short_circuit by eauto; exact Hnull].
  rewrite (multi_runs_probes rt p s reference screenshot) by assumption.
  destruct (run_probes _ _) as [[best pos]|e]; [|exact Hnull].
  simpl. destruct (threshold (self s) <=? best)%float; split; congruence.
Qed.

End Invariant.

(** C1, as amended.  For every threshold strictly above 0.0 (so for every
    threshold in (0,1]), both detection methods return, and the [found] flag
    they return is true if and only if the confidence they return is greater
    than or equal to the stored threshold; this covers the short-circuit and
    exception paths, which return (False, 0.0, None). *)
Theorem found_iff_confidence_ge_threshold (rt : runtime) (p : path) (s : state rt) :
  (0 <? threshold (self s))%float = true ->
  found_iff_threshold (threshold (self s)) (result_of (detect_ice_butterfly rt p) s) /\
  found_iff_threshold (threshold (self s)) (result_of (detect_multiple_scales rt p) s).
Proof.
  intros Hpos. split; [apply single_found_iff | apply multi_found_iff]; exact Hpos.
Qed.

(** The invariant on a detector with threshold 0.8 whose reference is a black
    and a white pixel, shown the same two pixels exchanged. *)
Lemma found_iff_confidence_ge_threshold_witness :
  let s := @mkState SimCV.rt (loaded "ref.png" 0.8 Fixtures.bw)
             (Fixtures.one_file "shot.png" Fixtures.wb) [] in
  found_iff_threshold 0.8 (result_of (detect_ice_butterfly SimCV.rt "shot.png") s) /\
  found_iff_threshold 0.8 (result_of (detect_multiple_scales SimCV.rt "shot.png") s).
Proof.
  intros s. apply (found_iff_confidence_ge_threshold SimCV.rt "shot.png" s). reflexivity.
Defined.

(** C1 as stated fails at threshold 0.0, a value of [0,1]: a detector whose
    reference file does not exist returns (False, 0.0, None), and 0.0 >= 0.0. *)
Lemma found_flag_false_at_threshold_zero :
  let s := snd (construct SimCV.rt "ice_butterfly_reference.png" 0 Fixtures.empty_disk) in
  in_unit_interval (threshold (self s)) = true /\
  result_of (detect_ice_butterfly SimCV.rt "shot.png") s = Return (false, 0%float, None) /\
  ~ found_iff_threshold (threshold (self s))
      (result_of (detect_ice_butterfly SimCV.rt "shot.png") s).
Proof.
  repeat split.
  intros [_ H]. specialize (H eq_refl). discriminate H.
Qed.

(** ** Initialization and the unavailable state *)

Section Initialization.

Variable rt : runtime.

(** The constructor returns whatever loading the reference does: it stores
    the decoded image when there is one and otherwise logs an error. *)
Lemma construct_returns (rp : path) (thr : float) (f : files rt) :
  exists img t,
    construct rt rp thr f = (Return tt, mkState (mkImageRecognition rp thr img) f t).
Proof.
  py_unfold.
  destruct (os_path_exists rt f rp); simpl; [|eauto].
  destruct (cv2_imread rt f rp) as [[img|]|e]; simpl; eauto.
Qed.

Lemma construct_unavailable (rp : path) (thr : float) (f : files rt) :
  os_path_exists rt f rp = false \/ cv2_imread rt f rp = Return None
  \/ (exists e, cv2_imread rt f rp = Raise e) ->
  exists t msg,
    construct rt rp thr f
    = (Return tt, mkState (mkImageRecognition rp thr None) f (t ++ [ev_log ERROR msg])).
Proof.
  intros H. py_unfold.
  destruct (os_path_exists rt f rp) eqn:Hex; simpl.
  - destruct H as [H|[H|[e H]]]; [discriminate| |]; rewrite H; simpl.
    + exists [ev_exists rp; ev_imread rp]. eexists. reflexivity.
    + exists [ev_exists rp; ev_imread rp]. eexists. reflexivity.
  - exists [ev_exists rp]. eexists. reflexivity.
Qed.

End Initialization.

(** C6.  When the reference path does not exist, the constructor leaves the
    object with no reference image, and every later call of
    [detect_ice_butterfly], whatever the screenshot path and whatever the file
    system has become, returns (False, 0.0, None) after logging one warning:
    it neither tests nor reads any file, and changes nothing else. *)
Theorem unavailable_detector_reads_no_file (rt : runtime) (rp : path) (thr : float)
  (f : files rt) :
  os_path_exists rt f rp = false ->
  let me := self (snd (construct rt rp thr f)) in
  reference_image me = None /\
  forall (p : path) (f' : files rt) (t : list event),
    detect_ice_butterfly rt p (mkState me f' t)
    = (Return (false, 0%float, None),
       mkState me f' (t ++ [ev_log WARNING "Reference image not loaded"])) /\
    file_event (ev_log WARNING "Reference image not loaded") = false.
Proof.
  intros Hex me.
  assert (Hnone : reference_image me = None).
  { subst me.
    destruct (construct_unavailable rt rp thr f (or_introl Hex)) as (t & msg & ->).
    reflexivity. }
  split; [exact Hnone|].
  intros p f' t. split; [|reflexivity].
  apply (detect_unavailable rt p (mkState me f' t)). exact Hnone.
Qed.

(** A detector built on an empty disk, then asked about a screenshot that has
    appeared since. *)
Lemma unavailable_detector_reads_no_file_witness :
  let me := self (snd (construct SimCV.rt "ice_butterfly_reference.png" 0.8
                         Fixtures.empty_disk)) in
  reference_image me = None /\
  forall (p : path) (f' : files SimCV.rt) (t : list event),
    detect_ice_butterfly SimCV.rt p (mkState me f' t)
    = (Return (false, 0%float, None),
       mkState me f' (t ++ [ev_log WARNING "Reference image not loaded"])) /\
    file_event (ev_log WARNING "Reference image not loaded") = false.
Proof.
  apply (unavailable_detector_reads_no_file SimCV.rt "ice_butterfly_reference.png" 0.8
           Fixtures.empty_disk).
  reflexivity.
Defined.

(** C7, as amended.  Initialization never fails: when the reference file does
    not exist, cannot be decoded, or reading it raises, the constructor logs an
    error and returns normally, leaving an object that stores the path and the
    threshold and has no reference image; the file system is unchanged. *)
Theorem init_returns_unavailable_detector (rt : runtime) (rp : path) (thr : float)
  (f : files rt) :
  os_path_exists rt f rp = false \/ cv2_imread rt f rp = Return None
  \/ (exists e, cv2_imread rt f rp = Raise e) ->
  ~ init_fails rt rp thr f /\
  exists t msg,
    construct rt rp thr f
    = (Return tt, mkState (mkImageRecognition rp thr None) f (t ++ [ev_log ERROR msg])).
Proof.
  intros H. destruct (construct_unavailable rt rp thr f H) as (t & msg & E).
  split; [|eauto].
  intros [e He]. rewrite E in He. discriminate He.
Qed.

(** Initialization on a file that exists and is no image. *)
Lemma init_returns_unavailable_detector_witness :
  let f : files SimCV.rt :=
    SimCV.mkDisk [] [("ice_butterfly_reference.png"%string, SimCV.Garbage)] in
  ~ init_fails SimCV.rt "ice_butterfly_reference.png" 0.8 f /\
  exists t msg,
    construct SimCV.rt "ice_butterfly_reference.png" 0.8 f
    = (Return tt,
       mkState (mkImageRecognition "ice_butterfly_reference.png" 0.8 None) f
         (t ++ [ev_log ERROR msg])).
Proof.
  intros f.
  apply (init_returns_unavailable_detector SimCV.rt "ice_butterfly_reference.png" 0.8 f).
  right. left. reflexivity.
Defined.

(** C7 as stated fails: with a reference path that does not exist the
    constructor returns normally instead of failing with an error. *)
Lemma init_with_missing_reference_returns :
  os_path_exists SimCV.rt Fixtures.empty_disk "ice_butterfly_reference.png" = false /\
  fst (construct SimCV.rt "ice_butterfly_reference.png" 0.8 Fixtures.empty_disk) = Return tt /\
  ~ init_fails SimCV.rt "ice_butterfly_reference.png" 0.8 Fixtures.empty_disk.
Proof.
  repeat split. intros [e He]. discriminate He.
Qed.

(** ** Determinism *)

Section Determinism.

Variable rt : runtime.

Lemma detect_returns (p : path) (s : state rt) :
  exists d t,
    detect_ice_butterfly rt p s = (Return d, mkState (self s) (fs s) (trace s ++ t)).
Proof.
  py_run; eexists; eexists; try reflexivity;
    rewrite <- ?app_assoc; simpl; reflexivity.
Qed.

Lemma detect_depends_on_object_and_files (p : path) (s s' : state rt) :
  self s' = self s -> fs s' = fs s ->
  result_of (detect_ice_butterfly rt p) s' = result_of (detect_ice_butterfly rt p) s.
Proof.
  destruct s as [o f t], s' as [o' f' t']. simpl. intros -> ->.
  py_run; reflexivity.
Qed.

(** The result is a function of the reference, the threshold and what the
    screenshot path holds: whether it exists and what it decodes to. *)
Lemma detect_depends_on_pixels (p p' : path) (s s' : state rt) :
  reference_image (self s') = reference_image (self s) ->
  threshold (self s') = threshold (self s) ->
  os_path_exists rt (fs s') p' = os_path_exists rt (fs s) p ->
  cv2_imread rt (fs s') p' = cv2_imread rt (fs s) p ->
  result_of (detect_ice_butterfly rt p') s' = result_of (detect_ice_butterfly rt p) s.
Proof.
  destruct s as [[rp thr ref] f t], s' as [[rp' thr' ref'] f' t']. simpl.
  intros -> -> Hex Hread.
  destruct ref as [reference|]; py_unfold; [|reflexivity].
  rewrite Hex. destruct (os_path_exists rt f p); simpl; [|reflexivity].
  rewrite Hread. repeat py_case; reflexivity.
Qed.

End Determinism.

(** C8.  [detect_ice_butterfly] always returns a result; the call leaves the
    stored object and the file system as they were (it only appends to the
    log); and its result is a function of the loaded reference, the
    threshold and the pixel data of the screenshot alone: a call on any
    detector with the same reference and threshold (whatever its reference
    path and log), in any file system and under any path where the screenshot
    exists or not and decodes to the same pixels, returns the same triple.
    In particular a second call made right after the first returns the same
    triple. *)
Theorem detect_deterministic_and_pure (rt : runtime) (p : path) (s : state rt) :
  (exists d, result_of (detect_ice_butterfly rt p) s = Return d) /\
  self (snd (detect_ice_butterfly rt p s)) = self s /\
  fs (snd (detect_ice_butterfly rt p s)) = fs s /\
  (forall (p' : path) (s' : state rt),
     reference_image (self s') = reference_image (self s) ->
     threshold (self s') = threshold (self s) ->
     os_path_exists rt (fs s') p' = os_path_exists rt (fs s) p ->
     cv2_imread rt (fs s') p' = cv2_imread rt (fs s) p ->
     result_of (detect_ice_butterfly rt p') s'
     = result_of (detect_ice_butterfly rt p) s) /\
  result_of (detect_ice_butterfly rt p) (snd (detect_ice_butterfly rt p s))
  = result_of (detect_ice_butterfly rt p) s.
Proof.
  destruct (detect_returns rt p s) as (d & t & E).
  split; [exists d; unfold result_of; rewrite E; reflexivity|].
  split; [rewrite E; reflexivity|].
  split; [rewrite E; reflexivity|].
  split; [intros p' s'; apply detect_depends_on_pixels|].
  apply detect_depends_on_pixels; rewrite E; reflexivity.
Qed.

(** The same pixels under another name, on another disk, read by a detector
    that was loaded from another path and has logged before. *)
Lemma detect_deterministic_and_pure_witness :
  result_of (detect_ice_butterfly SimCV.rt "copy.png")
    (@mkState SimCV.rt (loaded "other.png" 0.8 Fixtures.patch)
       (SimCV.mkDisk []
          [("copy.png"%string, SimCV.Picture Fixtures.canvas_with_patch);
           ("shot.png"%string, SimCV.Garbage)])
       [ev_log WARNING "Reference image not loaded"])
  = result_of (detect_ice_butterfly SimCV.rt "shot.png")
      (@mkState SimCV.rt (loaded "ref.png" 0.8 Fixtures.patch)
         (Fixtures.one_file "shot.png" Fixtures.canvas_with_patch) []).
Proof.
  apply (proj1 (proj2 (proj2 (proj2
           (detect_deterministic_and_pure SimCV.rt "shot.png"
              (@mkState SimCV.rt (loaded "ref.png" 0.8 Fixtures.patch)
                 (Fixtures.one_file "shot.png" Fixtures.canvas_with_patch) [])))))
           "copy.png"%string
           (@mkState SimCV.rt (loaded "other.png" 0.8 Fixtures.patch)
              (SimCV.mkDisk []
                 [("copy.png"%string, SimCV.Picture Fixtures.canvas_with_patch);
                  ("shot.png"%string, SimCV.Garbage)])
              [ev_log WARNING "Reference image not loaded"]));
    reflexivity.
Defined.

(** ** The loop over the scales *)

Section Peak.

Open Scope float_scope.

(** [acc] is the earliest maximum above 0.0 of the candidates seen so far. *)
Lemma first_peak_start : first_peak_above_zero [] 0 None.
Proof.
  split; [intros v q []|]. left. repeat split. intros v q [].
Qed.

Lemma first_peak_step (seen : list (float * point)) (a : float) (pos : option point)
  (v : float) (q : point) :
  first_peak_above_zero seen a pos ->
  first_peak_above_zero (seen ++ [(v, q)])
    (fst (keep_best (a, pos) (Scored v q))) (snd (keep_best (a, pos) (Scored v q))).
Proof.
  intros [Hmax Hcase]. simpl. destruct (a <? v) eqn:Hbeat; simpl.
  - split.
    + intros u qu Hin. apply in_app_or in Hin. destruct Hin as [Hin|[Heq|[]]].
      * apply leb_false_ltb_false. eapply ltb_overtakes; eauto.
      * injection Heq as <- <-. apply ltb_irrefl.
    + right. exists (length seen), q. repeat split.
      * rewrite nth_error_app2, Nat.sub_diag by lia. reflexivity.
      * destruct Hcase as [(-> & _ & _)|(i & qi & _ & _ & Hpos & _)]; [exact Hbeat|].
        eapply leb_ltb_trans; [apply ltb_leb; exact Hpos|exact Hbeat].
      * intros j u qu Hj Hnth. rewrite nth_error_app1 in Hnth by exact Hj.
        apply nth_error_In in Hnth. eapply ltb_overtakes; eauto.
  - split.
    + intros u qu Hin. apply in_app_or in Hin. destruct Hin as [Hin|[Heq|[]]]; eauto.
      injection Heq as <- <-. exact Hbeat.
    + destruct Hcase as [(-> & -> & Hlow)|(i & qi & Hnth & -> & Hpos & Hbefore)].
      * left. repeat split. intros u qu Hin. apply in_app_or in Hin.
        destruct Hin as [Hin|[Heq|[]]]; eauto. injection Heq as <- <-. exact Hbeat.
      * right. exists i, qi.
        assert (Hi : (i < length seen)%nat) by (apply nth_error_Some; congruence).
        repeat split; auto.
        -- rewrite nth_error_app1 by exact Hi. exact Hnth.
        -- intros j u qu Hj Hu. rewrite nth_error_app1 in Hu by lia. eauto.
Qed.

Lemma run_probes_peak (l : list probe) :
  no_failure l ->
  forall seen acc,
    first_peak_above_zero seen (fst acc) (snd acc) ->
    exists best pos,
      run_probes l acc = Return (best, pos) /\
      first_peak_above_zero (seen ++ scored l) best pos.
Proof.
  induction l as [|pr l IH]; intros Hok seen acc Hacc.
  - destruct acc as [a pos]. exists a, pos. simpl. rewrite app_nil_r. auto.
  - assert (Hok' : no_failure l) by (intros e He; apply (Hok e); right; exact He).
    destruct pr as [|v q|e].
    + apply (IH Hok' seen acc Hacc).
    + destruct acc as [a pos].
      destruct (IH Hok' (seen ++ [(v, q)]) (keep_best (a, pos) (Scored v q))
                  (first_peak_step seen a pos v q Hacc)) as (best & bpos & Hrun & Hpeak).
      exists best, bpos. split; [exact Hrun|].
      simpl scored. rewrite <- app_assoc in Hpeak. exact Hpeak.
    + exfalso. apply (Hok e). left. reflexivity.
Qed.

(** The accumulator never goes below 0.0. *)
Lemma run_probes_nonneg (l : list probe) :
  forall acc best pos,
    (0 <=? fst acc) = true -> run_probes l acc = Return (best, pos) -> (0 <=? best) = true.
Proof.
  induction l as [|pr l IH]; intros acc best pos Hacc Hrun.
  - simpl in Hrun. injection Hrun as E. rewrite E in Hacc. exact Hacc.
  - destruct pr as [|v q|e]; simpl in Hrun; [eauto| |discriminate].
    destruct (fst acc <? v) eqn:Hbeat.
    + eapply IH; [|exact Hrun]. simpl.
      apply ltb_leb. eapply leb_ltb_trans; eauto.
    + eapply IH; [|exact Hrun]. exact Hacc.
Qed.

(** With no score above 0.0 the accumulator stays at its initial value. *)
Lemma run_probes_stays (l : list probe) :
  (forall v q, In (v, q) (scored l) -> (0 <? v) = false) ->
  run_probes l (0, None) = Return (0, None) \/ exists e, run_probes l (0, None) = Raise e.
Proof.
  induction l as [|pr l IH]; intros Hlow; [left; reflexivity|].
  destruct pr as [|v q|e]; simpl.
  - apply IH. exact Hlow.
  - rewrite (Hlow v q) by (left; reflexivity).
    apply IH. intros u qu Hin. apply (Hlow u qu). right. exact Hin.
  - right. eauto.
Qed.

Lemma run_probes_all_skipped (l : list probe) (acc : float * option point) :
  (forall pr, In pr l -> pr = Skipped) -> run_probes l acc = Return acc.
Proof.
  induction l as [|pr l IH]; intros Hall; [reflexivity|].
  rewrite (Hall pr) by (left; reflexivity). simpl.
  apply IH. intros pr' Hin. apply Hall. right. exact Hin.
Qed.

End Peak.

(** C3, as amended.  Past its guards (reference loaded, screenshot present and
    decoded) and when no library call raises, [detect_multiple_scales] tries
    the factors 0.5, 0.75, 1.0, 1.25, 1.5 in that order, each as [probe_scale]
    describes (both dimensions of the reference multiplied by the factor and
    truncated; the scale skipped when a dimension is not positive or the
    resized template exceeds the screenshot), and returns the maximum of the
    scores of the valid scales when it is strictly above 0.0, with the
    position of the earliest scale that attains it; when no score is above 0.0
    it returns confidence 0.0 and position None.  [found] is the comparison of
    that confidence with the threshold. *)
Theorem multi_scale_returns_first_peak_above_zero (rt : runtime) (p : path) (s : state rt)
  (reference screenshot : image) :
  reference_image (self s) = Some reference ->
  os_path_exists rt (fs s) p = true ->
  cv2_imread rt (fs s) p = Return (Some screenshot) ->
  no_failure (map (probe_scale rt reference screenshot) scales) ->
  scales = [0.5; 0.75; 1; 1.25; 1.5]%float /\
  exists best pos,
    result_of (detect_multiple_scales rt p) s
    = Return ((threshold (self s) <=? best)%float, best, pos) /\
    first_peak_above_zero (scored (map (probe_scale rt reference screenshot) scales)) best pos.
Proof.
  intros Href Hex Hread Hok. split; [reflexivity|].
  rewrite (multi_runs_probes rt p s reference screenshot Href Hex Hread).
  destruct (run_probes_peak _ Hok [] (0%float, None) first_peak_start)
    as (best & pos & Hrun & Hpeak).
  exists best, pos. rewrite Hrun. split; [reflexivity|exact Hpeak].
Qed.

(** The four-colour patch searched for in the canvas that holds it at (3, 2):
    the scales 0.5 and 0.75 shrink it to one pixel, which scores 1 at every
    offset, 1.0 and 1.25 keep its size and score 1 at (3, 2), 1.5 makes it
    3 by 3; the tie is kept by the earliest scale. *)
Lemma multi_scale_returns_first_peak_above_zero_witness :
  let s := @mkState SimCV.rt (loaded "ref.png" 0.8 Fixtures.patch)
             (Fixtures.one_file "shot.png" Fixtures.canvas_with_patch) [] in
  scales = [0.5; 0.75; 1; 1.25; 1.5]%float /\
  exists best pos,
    result_of (detect_multiple_scales SimCV.rt "shot.png") s
    = Return ((0.8 <=? best)%float, best, pos) /\
    first_peak_above_zero
      (scored (map (probe_scale SimCV.rt Fixtures.patch Fixtures.canvas_with_patch) scales))
      best pos.
Proof.
  intros s.
  apply (multi_scale_returns_first_peak_above_zero SimCV.rt "shot.png" s
           Fixtures.patch Fixtures.canvas_with_patch); try reflexivity.
  intros e He. vm_compute in He.
  repeat (destruct He as [He|He]; [discriminate He|]). exact He.
Defined.

(** C3 as stated fails: a black and a white pixel searched for in the same two
    pixels exchanged score -1 at the two valid scales (1.0 and 1.25), and the
    call returns confidence 0.0 and no position, which is no score of a valid
    scale. *)
Lemma multi_scale_misses_negative_peak :
  let s := @mkState SimCV.rt (loaded "ref.png" 0.8 Fixtures.bw)
             (Fixtures.one_file "shot.png" Fixtures.wb) [] in
  let cands := scored (map (probe_scale SimCV.rt Fixtures.bw Fixtures.wb) scales) in
  cands = [((-1)%float, (0, 0)); ((-1)%float, (0, 0))] /\
  result_of (detect_multiple_scales SimCV.rt "shot.png") s = Return (false, 0%float, None) /\
  ~ returns_peak_of cands (result_of (detect_multiple_scales SimCV.rt "shot.png") s).
Proof.
  intros s cands.
  assert (Hres : result_of (detect_multiple_scales SimCV.rt "shot.png") s
                 = Return (false, 0%float, None)) by (vm_compute; reflexivity).
  split; [vm_compute; reflexivity|]. split; [exact Hres|].
  intros (found & v & q & E & _). rewrite Hres in E. discriminate E.
Qed.

(** C4, as amended.  For every threshold strictly above 0.0: when every scale
    is skipped, [detect_multiple_scales] returns exactly (False, 0.0, None). *)
Theorem no_valid_scale_returns_null (rt : runtime) (p : path) (s : state rt)
  (reference screenshot : image) :
  (0 <? threshold (self s))%float = true ->
  reference_image (self s) = Some reference ->
  os_path_exists rt (fs s) p = true ->
  cv2_imread rt (fs s) p = Return (Some screenshot) ->
  (forall scale, In scale scales -> probe_scale rt reference screenshot scale = Skipped) ->
  result_of (detect_multiple_scales rt p) s = Return (false, 0%float, None).
Proof.
  intros Hpos Href Hex Hread Hskip.
  rewrite (multi_runs_probes rt p s reference screenshot Href Hex Hread).
  rewrite run_probes_all_skipped.
  - rewrite (ltb_not_leb _ _ Hpos). reflexivity.
  - intros pr Hin. apply in_map_iff in Hin. destruct Hin as (scale & <- & Hin). auto.
Qed.

(** A 4 by 4 reference and a screenshot of one pixel: no scale fits. *)
Lemma no_valid_scale_returns_null_witness :
  result_of (detect_multiple_scales SimCV.rt "shot.png")
    (@mkState SimCV.rt (loaded "ref.png" 0.8 (SimCV.solid 4 4 SimCV.red))
       (Fixtures.one_file "shot.png" (SimCV.solid 1 1 SimCV.blue)) [])
  = Return (false, 0%float, None).
Proof.
  apply (no_valid_scale_returns_null SimCV.rt "shot.png" _
           (SimCV.solid 4 4 SimCV.red) (SimCV.solid 1 1 SimCV.blue)); try reflexivity.
  intros scale Hin. vm_compute in Hin.
  repeat (destruct Hin as [<-|Hin]; [vm_compute; reflexivity|]). destruct Hin.
Defined.

(** C4 as stated fails at threshold 0.0, a value of [0,1]: with every scale
    skipped the call returns found = True with confidence 0.0 and no
    position. *)
Lemma no_valid_scale_found_at_threshold_zero :
  let reference := SimCV.solid 4 4 SimCV.red in
  let screenshot := SimCV.solid 1 1 SimCV.blue in
  let s := @mkState SimCV.rt (loaded "ref.png" 0 reference)
             (Fixtures.one_file "shot.png" screenshot) [] in
  in_unit_interval (threshold (self s)) = true /\
  map (probe_scale SimCV.rt reference screenshot) scales
  = [Skipped; Skipped; Skipped; Skipped; Skipped] /\
  result_of (detect_multiple_scales SimCV.rt "shot.png") s = Return (true, 0%float, None) /\
  result_of (detect_multiple_scales SimCV.rt "shot.png") s <> Return (false, 0%float, None).
Proof.
  intros reference screenshot s.
  assert (Hres : result_of (detect_multiple_scales SimCV.rt "shot.png") s
                 = Return (true, 0%float, None)) by (vm_compute; reflexivity).
  split; [reflexivity|]. split; [vm_compute; reflexivity|]. split; [exact Hres|].
  rewrite Hres. discriminate.
Qed.

(** C10.  [detect_multiple_scales] always returns, and never with a negative
    (or NaN) confidence; when the score of every valid scale is at most 0.0 it
    returns confidence 0.0 and position None, whatever the matcher found;
    [detect_ice_butterfly] returns the raw best score of the matcher, negative
    or not, with its location. *)
Theorem multi_scale_confidence_never_negative (rt : runtime) (p : path) (s : state rt) :
  (exists found confidence pos,
     result_of (detect_multiple_scales rt p) s = Return (found, confidence, pos) /\
     (0 <=? confidence)%float = true) /\
  (forall reference screenshot,
     reference_image (self s) = Some reference ->
     cv2_imread rt (fs s) p = Return (Some screenshot) ->
     (forall v q, In (v, q) (scored (map (probe_scale rt reference screenshot) scales)) ->
                  (v <=? 0)%float = true) ->
     exists found,
       result_of (detect_multiple_scales rt p) s = Return (found, 0%float, None)) /\
  (forall reference screenshot v q,
     reference_image (self s) = Some reference ->
     os_path_exists rt (fs s) p = true ->
     cv2_imread rt (fs s) p = Return (Some screenshot) ->
     best_match rt screenshot reference = Return (v, q) ->
     result_of (detect_ice_butterfly rt p) s
     = Return ((threshold (self s) <=? v)%float, v, Some q)).
Proof.
  assert (Hnull : exists found confidence pos,
             @Return detection not_found = Return (found, confidence, pos) /\
             (0 <=? confidence)%float = true).
  { exists false, 0%float, None. split; reflexivity. }
  split; [|split].
  - destruct (reference_image (self s)) as [reference|] eqn:Href;
      [|rewrite multi_short_circuit by auto; exact Hnull].
    destruct (os_path_exists rt (fs s) p) eqn:Hex;
      [|rewrite multi_short_circuit by auto; exact Hnull].
    destruct (cv2_imread rt (fs s) p) as [[screenshot|]|e] eqn:Hread;
      [|rewrite multi_short_circuit by auto; exact Hnull
       |rewrite multi_short_circuit by eauto; exact Hnull].
    rewrite (multi_runs_probes rt p s reference screenshot) by assumption.
    destruct (run_probes _ _) as [[best pos]|e] eqn:Hrun; [|exact Hnull].
    eexists _, best, pos. split; [reflexivity|].
    apply (run_probes_nonneg (map (probe_scale rt reference screenshot) scales)
             (0%float, None) best pos); [reflexivity|exact Hrun].
  - intros reference screenshot Href Hread Hlow.
    destruct (os_path_exists rt (fs s) p) eqn:Hex;
      [|rewrite multi_short_circuit by auto; exists false; reflexivity].
    rewrite (multi_runs_probes rt p s reference screenshot) by assumption.
    destruct (run_probes_stays (map (probe_scale rt reference screenshot) scales))
      as [E|[e E]].
    + intros v q Hin. specialize (Hlow v q Hin).
      destruct (0 <? v)%float eqn:Hv; [|reflexivity].
      apply ltb_not_leb in Hv. congruence.
    + rewrite E. eexists. reflexivity.
    + rewrite E. exists false. reflexivity.
  - intros reference screenshot v q. apply detect_returns_peak.
Qed.

(** A black and a white pixel searched for in the same two pixels exchanged:
    the correlation is -1; the multi-scale method reports 0.0 and no position,
    the single-scale method -1 at (0, 0). *)
Lemma multi_scale_confidence_never_negative_witness :
  let s := @mkState SimCV.rt (loaded "ref.png" 0.8 Fixtures.bw)
             (Fixtures.one_file "shot.png" Fixtures.wb) [] in
  (exists found,
     result_of (detect_multiple_scales SimCV.rt "shot.png") s = Return (found, 0%float, None)) /\
  result_of (detect_ice_butterfly SimCV.rt "shot.png") s
  = Return ((0.8 <=? -1)%float, (-1)%float, Some (0, 0)).
Proof.
  intros s.
  destruct (multi_scale_confidence_never_negative SimCV.rt "shot.png" s) as (_ & Hlow & Hraw).
  split.
  - apply (Hlow Fixtures.bw Fixtures.wb); try reflexivity.
    intros v q Hin. vm_compute in Hin.
    repeat (destruct Hin as [Hin|Hin]; [injection Hin as <- <-; reflexivity|]).
    destruct Hin.
  - apply (Hraw Fixtures.bw Fixtures.wb); reflexivity.
Defined.

(** ** The single-scale method and the shapes of the images *)

(** C2.  A reference of 6 by 5 pixels and a screenshot of 2 by 2: the
    reference is larger than the screenshot in both dimensions, the method
    has no guard on the shapes, the matcher exchanges the two images, and the
    call reports the screenshot found at (3, 2) with confidence 1.0 instead of
    returning (False, 0.0, None). *)
Theorem oversized_reference_reported_found :
  let reference := Fixtures.canvas_with_patch in
  let screenshot := Fixtures.patch in
  let s := @mkState SimCV.rt (loaded "ref.png" 0.8 reference)
             (Fixtures.one_file "shot.png" screenshot) [] in
  shape0 reference > shape0 screenshot /\
  shape1 reference > shape1 screenshot /\
  result_of (detect_ice_butterfly SimCV.rt "shot.png") s = Return (true, 1%float, Some (3, 2)) /\
  result_of (detect_ice_butterfly SimCV.rt "shot.png") s <> Return not_found.
Proof.
  intros reference screenshot s.
  assert (Hres : result_of (detect_ice_butterfly SimCV.rt "shot.png") s
                 = Return (true, 1%float, Some (3, 2))) by (vm_compute; reflexivity).
  repeat split; try exact Hres. rewrite Hres. discriminate.
Qed.

(** The three guards of the single-scale method, and the case in which the
    matcher raises, do give the null result. *)
Lemma detect_null_results (rt : runtime) (p : path) (s : state rt) :
  reference_image (self s) = None \/ os_path_exists rt (fs s) p = false
  \/ cv2_imread rt (fs s) p = Return None
  \/ (exists reference screenshot e,
        reference_image (self s) = Some reference /\
        cv2_imread rt (fs s) p = Return (Some screenshot) /\
        cv2_matchTemplate rt screenshot reference = Raise e) ->
  result_of (detect_ice_butterfly rt p) s = Return not_found.
Proof.
  intros [H|[H|[H|(reference & screenshot & e & Href & Hread & Hraise)]]].
  - unfold result_of. rewrite detect_unavailable by exact H. reflexivity.
  - apply detect_missing_screenshot. exact H.
  - apply detect_undecodable_screenshot. exact H.
  - eapply detect_matcher_raises; eauto.
Qed.

(** ** Pasted references *)



(** The end-to-end scenario in the simulated runtime: the red square has zero
    variance, every offset scores 1.0, and the first offset is reported. *)
Lemma red_square_scenario :
  result_of (detect_ice_butterfly SimCV.rt "shot.png")
    (@mkState SimCV.rt (loaded "ref.png" 0.8 Fixtures.red_square)
       (Fixtures.one_file "shot.png" Fixtures.red_on_blue) [])
  = Return (true, 1%float, Some (0, 0)).
Proof. vm_compute. reflexivity. Qed.







(** ** The visualization *)

Section Visualization.

Variable rt : runtime.

(** No exception crosses the boundary. *)
Lemma visualization_never_raises (p : path) (position : option point) (out : path)
  (s : state rt) :
  exists b, result_of (create_detection_visualization rt p position out) s = Return b.
Proof. py_run; eauto. Qed.

(** What the method returns does not depend on the status [cv2.imwrite]
    returns: once the drawing is done it is [True] whenever the write does
    not raise. *)
Lemma visualization_ignores_write_status (p out : path) (x y : Z) (s : state rt)
  (reference screenshot boxed captioned : image) (written : bool) (f' : files rt) :
  os_path_exists rt (fs s) p = true ->
  reference_image (self s) = Some reference ->
  cv2_imread rt (fs s) p = Return (Some screenshot) ->
  cv2_rectangle rt screenshot (x, y) (x + shape1 reference, y + shape0 reference)
  = Return boxed ->
  cv2_putText rt boxed "Ice Butterfly Found!" (x, y - 10) = Return captioned ->
  cv2_imwrite rt (fs s) out captioned = (Return written, f') ->
  create_detection_visualization rt p (Some (x, y)) out s
  = (Return true,
     mkState (self s) f'
       (trace s ++ [ev_exists p; ev_imread p; ev_imwrite out;
                    ev_log INFO "Detection visualization saved"])).
Proof.
  intros Hex Href Hread Hbox Htext Hwrite.
  py_unfold. rewrite Hex, Href. simpl. rewrite Hread. simpl. rewrite Href. simpl.
  rewrite Hbox. simpl. rewrite Htext. simpl. rewrite Hwrite. simpl.
  rewrite <- !app_assoc. reflexivity.
Qed.

(** Failures before the write do give [False]. *)
Lemma visualization_false_before_write (p out : path) (position : option point)
  (s : state rt) :
  os_path_exists rt (fs s) p = false \/ reference_image (self s) = None
  \/ cv2_imread rt (fs s) p = Return None \/ position = None ->
  result_of (create_detection_visualization rt p position out) s = Return false.
Proof.
  intros [H|[H|[H|H]]]; subst; py_run; try reflexivity; congruence.
Qed.

End Visualization.

(** C9.  The patch is found at (3, 2) and the annotated copy is to go to a
    directory that does not exist: [cv2.imwrite] returns [False] and writes
    nothing, and the method logs that the visualization was saved and returns
    [True], with no file at the output path. *)
Theorem visualization_true_without_file :
  let s := @mkState SimCV.rt (loaded "ref.png" 0.8 Fixtures.patch)
             (Fixtures.one_file "shot.png" Fixtures.canvas_with_patch) [] in
  let r := create_detection_visualization SimCV.rt "shot.png" (Some (3, 2))
             "/missing/out.png" s in
  (forall img, cv2_imwrite SimCV.rt (fs s) "/missing/out.png" img = (Return false, fs s)) /\
  fst r = Return true /\
  fs (snd r) = fs s /\
  os_path_exists SimCV.rt (fs (snd r)) "/missing/out.png" = false /\
  trace (snd r) = [ev_exists "shot.png"; ev_imread "shot.png"; ev_imwrite "/missing/out.png";
                   ev_log INFO "Detection visualization saved"].
Proof.
  intros s r. split; [intros img; reflexivity|].
  vm_compute. repeat split.
Qed.

(** * Further properties *)

(** ** More on the order of floats *)

Lemma Prim2SF_nan_iff (x : float) : is_nan x = true <-> Prim2SF x = S754_nan.
Proof.
  unfold Prim2SF. destruct (is_nan x); [split; reflexivity|].
  split; [discriminate|].
  destruct (is_zero x); [discriminate|].
  destruct (is_infinity x); [discriminate|].
  destruct (Z.frexp x) as [r e].
  destruct (shr_fexp prec emax _ _ _) as [shr e'].
  destruct (shr_m shr); discriminate.
Qed.

Lemma SFleb_nan_l y : SFleb S754_nan y = false.
Proof. reflexivity. Qed.

Lemma SFleb_nan_r x : SFleb x S754_nan = false.
Proof. destruct x; reflexivity. Qed.

Lemma SFleb_carries t v c :
  SFleb t v = true -> SFltb c v = false -> c <> S754_nan -> SFleb t c = true.
Proof. sf_cases. Qed.

Lemma SF_between (p : positive) (e0 : Z) x :
  SFltb x (S754_zero false) || SFltb (S754_finite false p e0) x = false <->
  x = S754_nan \/
  SFleb (S754_zero false) x && SFleb x (S754_finite false p e0) = true.
Proof.
  unfold SFltb, SFleb, SFcompare.
  destruct x as [s|s| |s m e]; try destruct s; simpl;
    try (split; [intros; try (right; reflexivity); try (left; reflexivity); discriminate
                |intros [H|H]; try reflexivity; discriminate]).
  change (Pos.compare_cont Eq p m) with (Pos.compare p m).
  change (Pos.compare_cont Eq m p) with (Pos.compare m p).
  rewrite (Z.compare_antisym e e0), (Pos.compare_antisym m p).
  destruct (e ?= e0); simpl; try destruct (m ?= p)%positive; simpl;
    (split; [intros; try (right; reflexivity); discriminate
            |intros [H|H]; try reflexivity; discriminate]).
Qed.

Section FloatClasses.

Open Scope float_scope.

Lemma nan_leb (x y : float) : is_nan x = true -> (x <=? y) = false.
Proof.
  intros H. apply Prim2SF_nan_iff in H. rewrite leb_spec, H. apply SFleb_nan_l.
Qed.

Lemma leb_not_nan (x y : float) : (x <=? y) = true -> is_nan y = false.
Proof.
  intros H. destruct (is_nan y) eqn:E; [|reflexivity].
  apply Prim2SF_nan_iff in E. rewrite leb_spec, E, SFleb_nan_r in H. discriminate H.
Qed.

(** A score that reaches the threshold is reached by every confidence that it
    does not exceed. *)
Lemma leb_carries (t v c z : float) :
  (t <=? v) = true -> (c <? v) = false -> (z <=? c) = true -> (t <=? c) = true.
Proof.
  intros Htv Hcv Hzc. apply leb_not_nan in Hzc.
  rewrite leb_spec in *. rewrite ltb_spec in Hcv.
  apply (SFleb_carries _ (Prim2SF v)); try assumption.
  intros E. apply Prim2SF_nan_iff in E. congruence.
Qed.

(** The range check of [Config.validate] lets through the thresholds of the
    unit interval and NaN. *)
Lemma unit_interval_check (x : float) :
  (x <? 0) || (1 <? x) = false <-> is_nan x = true \/ in_unit_interval x = true.
Proof.
  unfold in_unit_interval. rewrite Prim2SF_nan_iff, !ltb_spec, !leb_spec.
  change (Prim2SF 0) with (S754_zero false).
  change (Prim2SF 1) with (S754_finite false 4503599627370496 (-52)).
  apply SF_between.
Qed.

End FloatClasses.

(** ** The configuration check *)

Lemma in_snoc_if (b : bool) (l : list string) (m x : string) :
  In x (if b then l ++ [m] else l) <-> In x l \/ (b = true /\ x = m).
Proof.
  destruct b.
  - rewrite in_app_iff. simpl. intuition congruence.
  - intuition congruence.
Qed.

Lemma validate_in (cls : Config) (x : string) :
  In x (validate cls) <->
  (x = token_required /\ DISCORD_BOT_TOKEN cls = EmptyString) \/
  (x = interval_too_small /\ MONITORING_INTERVAL cls < 1) \/
  (x = threshold_out_of_range /\
   ~ (is_nan (MATCH_THRESHOLD cls) = true \/ in_unit_interval (MATCH_THRESHOLD cls) = true)).
Proof.
  unfold validate. rewrite !in_snoc_if. simpl.
  rewrite String.eqb_eq, Z.ltb_lt, <- unit_interval_check.
  destruct ((MATCH_THRESHOLD cls <? 0) || (1 <? MATCH_THRESHOLD cls))%float;
    intuition congruence.
Qed.

Lemma validate_threshold_error (cls : Config) :
  In threshold_out_of_range (validate cls) <->
  ~ (is_nan (MATCH_THRESHOLD cls) = true \/ in_unit_interval (MATCH_THRESHOLD cls) = true).
Proof.
  rewrite validate_in. unfold threshold_out_of_range, token_required, interval_too_small.
  split.
  - intros [[E _]|[[E _]|[_ H]]]; try discriminate E. exact H.
  - intros H. right. right. split; [reflexivity|exact H].
Qed.

Lemma validate_accepts (cls : Config) :
  validate cls = [] <->
  DISCORD_BOT_TOKEN cls <> EmptyString /\ 1 <= MONITORING_INTERVAL cls /\
  (is_nan (MATCH_THRESHOLD cls) = true \/ in_unit_interval (MATCH_THRESHOLD cls) = true).
Proof.
  split.
  - intros E.
    assert (Hno : forall x, ~ In x (validate cls)) by (intros x; rewrite E; intros []).
    repeat split.
    + intros Htok. apply (Hno token_required). apply validate_in. left. auto.
    + destruct (Z.lt_ge_cases (MONITORING_INTERVAL cls) 1) as [Hlt|Hge]; [|exact Hge].
      exfalso. apply (Hno interval_too_small). apply validate_in. right. left. auto.
    + destruct (is_nan (MATCH_THRESHOLD cls)) eqn:Hnan; [left; reflexivity|].
      destruct (in_unit_interval (MATCH_THRESHOLD cls)) eqn:Hin; [right; reflexivity|].
      exfalso. apply (Hno threshold_out_of_range). apply validate_threshold_error.
      intros [H|H]; congruence.
  - intros (Htok & Hint & Hthr).
    destruct (validate cls) as [|x l] eqn:E; [reflexivity|].
    assert (Hin : In x (validate cls)) by (rewrite E; left; reflexivity).
    apply validate_in in Hin. destruct Hin as [[_ H]|[[_ H]|[_ H]]]; [tauto|lia|tauto].
Qed.

(** X1.  [Config.validate] reports each violated requirement, and only those:
    the token error exactly when the token is empty, the interval error
    exactly when the interval is below 1, and the threshold error exactly when
    the threshold is neither NaN nor in [0,1]; so a configuration is accepted
    exactly when its token is non-empty, its interval at least 1, and its
    threshold in [0,1] or NaN. *)
Theorem validate_reports_each_violation (cls : Config) :
  (In token_required (validate cls) <-> DISCORD_BOT_TOKEN cls = EmptyString) /\
  (In interval_too_small (validate cls) <-> MONITORING_INTERVAL cls < 1) /\
  (In threshold_out_of_range (validate cls) <->
   ~ (is_nan (MATCH_THRESHOLD cls) = true \/ in_unit_interval (MATCH_THRESHOLD cls) = true)) /\
  (validate cls = [] <->
   DISCORD_BOT_TOKEN cls <> EmptyString /\ 1 <= MONITORING_INTERVAL cls /\
   (is_nan (MATCH_THRESHOLD cls) = true \/ in_unit_interval (MATCH_THRESHOLD cls) = true)).
Proof.
  split; [|split; [|split; [apply validate_threshold_error|apply validate_accepts]]].
  - rewrite validate_in. unfold threshold_out_of_range, token_required, interval_too_small.
    split.
    + intros [[_ H]|[[E _]|[E _]]]; try discriminate E. exact H.
    + intros H. left. split; [reflexivity|exact H].
  - rewrite validate_in. unfold threshold_out_of_range, token_required, interval_too_small.
    split.
    + intros [[E _]|[[_ H]|[E _]]]; try discriminate E. exact H.
    + intros H. right. left. split; [reflexivity|exact H].
Qed.

(** ** A threshold that is no number *)

Section NanThreshold.

Variable rt : runtime.

Lemma single_never_found_with_nan (p : path) (s : state rt) :
  is_nan (threshold (self s)) = true ->
  exists confidence pos,
    result_of (detect_ice_butterfly rt p) s = Return (false, confidence, pos).
Proof.
  intros Hnan. py_run; eauto.
  match goal with H : (_ <=? _)%float = true |- _ => rewrite (nan_leb _ _ Hnan) in H end.
  discriminate.
Qed.

Lemma multi_never_found_with_nan (p : path) (s : state rt) :
  is_nan (threshold (self s)) = true ->
  exists confidence pos,
    result_of (detect_multiple_scales rt p) s = Return (false, confidence, pos).
Proof.
  intros Hnan.
  assert (Hnull : exists confidence pos,
             @Return detection not_found = Return (false, confidence, pos))
    by (eexists _, _; reflexivity).
  destruct (reference_image (self s)) as [reference|] eqn:Href;
    [|rewrite multi_short_circuit by auto; exact Hnull].
  destruct (os_path_exists rt (fs s) p) eqn:Hex;
    [|rewrite multi_short_circuit by auto; exact Hnull].
  destruct (cv2_imread rt (fs s) p) as [[screenshot|]|e] eqn:Hread;
    [|rewrite multi_short_circuit by auto; exact Hnull
     |rewrite multi_short_circuit by eauto; exact Hnull].
  rewrite (multi_runs_probes rt p s reference screenshot) by assumption.
  destruct (run_probes _ _) as [[best pos]|e]; [|exact Hnull].
  rewrite (nan_leb _ _ Hnan). eauto.
Qed.

End NanThreshold.

(** X2.  A NaN threshold (as MATCH_THRESHOLD=nan gives) is not reported by
    [Config.validate], and with it neither detection method ever returns
    found = True, whatever the screenshot and whatever the matcher scores. *)
Theorem nan_threshold_accepted_and_never_found (cls : Config) :
  is_nan (MATCH_THRESHOLD cls) = true ->
  ~ In threshold_out_of_range (validate cls) /\
  forall (rt : runtime) (p : path) (s : state rt),
    threshold (self s) = MATCH_THRESHOLD cls ->
    (exists confidence pos,
       result_of (detect_ice_butterfly rt p) s = Return (false, confidence, pos)) /\
    (exists confidence pos,
       result_of (detect_multiple_scales rt p) s = Return (false, confidence, pos)).
Proof.
  intros Hnan. split.
  - intros Hin. apply validate_threshold_error in Hin. apply Hin. left. exact Hnan.
  - intros rt p s Hthr. rewrite <- Hthr in Hnan.
    split; [apply single_never_found_with_nan | apply multi_never_found_with_nan]; exact Hnan.
Qed.

(** A configuration with the default values and MATCH_THRESHOLD=nan. *)
Lemma nan_threshold_accepted_and_never_found_witness :
  let cls := mkConfig "token" "general" 10 600 true 30 nan "ice_butterfly_reference.png"
               "https://taming.io" "INFO" in
  ~ In threshold_out_of_range (validate cls) /\
  forall (rt : runtime) (p : path) (s : state rt),
    threshold (self s) = MATCH_THRESHOLD cls ->
    (exists confidence pos,
       result_of (detect_ice_butterfly rt p) s = Return (false, confidence, pos)) /\
    (exists confidence pos,
       result_of (detect_multiple_scales rt p) s = Return (false, confidence, pos)).
Proof.
  intros cls. apply (nan_threshold_accepted_and_never_found cls). reflexivity.
Defined.

(** ** When the detector is available *)

(** X3.  The constructor always returns, stores the path and the threshold as
    given and leaves the file system as it was; the detector it yields holds
    the image [img] exactly when the reference path exists and [cv2.imread]
    decodes it to [img]. *)
Theorem construct_available_iff (rt : runtime) (rp : path) (thr : float) (f : files rt)
  (img : image) :
  fst (construct rt rp thr f) = Return tt /\
  reference_image_path (self (snd (construct rt rp thr f))) = rp /\
  threshold (self (snd (construct rt rp thr f))) = thr /\
  fs (snd (construct rt rp thr f)) = f /\
  (reference_image (self (snd (construct rt rp thr f))) = Some img <->
   os_path_exists rt f rp = true /\ cv2_imread rt f rp = Return (Some img)).
Proof.
  py_unfold.
  destruct (os_path_exists rt f rp); simpl.
  - destruct (cv2_imread rt f rp) as [[img'|]|e]; simpl;
      repeat split; try congruence; intros; try tauto;
      repeat match goal with H : _ /\ _ |- _ => destruct H end; congruence.
  - repeat split; try discriminate. intros [H _]. discriminate H.
Qed.

(** ** What the visualization does *)

Section VisualizationFrame.

Variable rt : runtime.

Lemma visualization_true_only_after_write (p out : path) (position : option point)
  (s : state rt) :
  result_of (create_detection_visualization rt p position out) s = Return true ->
  exists x y reference screenshot boxed captioned written f',
    position = Some (x, y) /\
    os_path_exists rt (fs s) p = true /\
    reference_image (self s) = Some reference /\
    cv2_imread rt (fs s) p = Return (Some screenshot) /\
    cv2_rectangle rt screenshot (x, y) (x + shape1 reference, y + shape0 reference)
    = Return boxed /\
    cv2_putText rt boxed "Ice Butterfly Found!" (x, y - 10) = Return captioned /\
    cv2_imwrite rt (fs s) out captioned = (Return written, f').
Proof.
  py_unfold.
  destruct (os_path_exists rt (fs s) p) eqn:Hex; simpl; [|discriminate].
  destruct (reference_image (self s)) as [reference|] eqn:Href; simpl; [|discriminate].
  destruct (cv2_imread rt (fs s) p) as [[screenshot|]|e] eqn:Hread; simpl; try discriminate.
  rewrite Href.
  destruct position as [[x y]|]; simpl; [|discriminate].
  destruct (cv2_rectangle rt screenshot (x, y) (x + shape1 reference, y + shape0 reference))
    as [boxed|e] eqn:Hbox; simpl; [|discriminate].
  destruct (cv2_putText rt boxed "Ice Butterfly Found!" (x, y - 10))
    as [captioned|e] eqn:Htext; simpl; [|discriminate].
  destruct (cv2_imwrite rt (fs s) out captioned) as [[written|e] f'] eqn:Hwrite; simpl;
    [|discriminate].
  intros _. exists x, y, reference, screenshot, boxed, captioned, written, f'. tauto.
Qed.

Lemma visualization_frame (p out : path) (position : option point) (s : state rt) :
  exists b f' t,
    create_detection_visualization rt p position out s
    = (Return b, mkState (self s) f' (trace s ++ t)) /\
    (f' = fs s /\ ~ In (ev_imwrite out) t
     \/ exists img, f' = snd (cv2_imwrite rt (fs s) out img)).
Proof.
  py_unfold.
  destruct (os_path_exists rt (fs s) p) eqn:Hex; simpl.
  2:{ eexists _, _, _. split; [reflexivity|]. left. split; [reflexivity|].
      simpl. intuition discriminate. }
  destruct (reference_image (self s)) as [reference|] eqn:Href; simpl.
  2:{ eexists _, _, _. split; [reflexivity|]. left. split; [reflexivity|].
      simpl. intuition discriminate. }
  destruct (cv2_imread rt (fs s) p) as [[screenshot|]|e] eqn:Hread; simpl.
  2,3:(eexists _, _, _; rewrite <- ?app_assoc; split; [reflexivity|]; left;
       split; [reflexivity|]; simpl; intuition discriminate).
  rewrite Href.
  destruct position as [[x y]|]; simpl.
  2:{ eexists _, _, _; rewrite <- ?app_assoc; split; [reflexivity|]; left;
      split; [reflexivity|]; simpl; intuition discriminate. }
  destruct (cv2_rectangle rt screenshot (x, y) (x + shape1 reference, y + shape0 reference))
    as [boxed|e]; simpl.
  2:{ eexists _, _, _; rewrite <- ?app_assoc; split; [reflexivity|]; left;
      split; [reflexivity|]; simpl; intuition discriminate. }
  destruct (cv2_putText rt boxed "Ice Butterfly Found!" (x, y - 10)) as [captioned|e]; simpl.
  2:{ eexists _, _, _; rewrite <- ?app_assoc; split; [reflexivity|]; left;
      split; [reflexivity|]; simpl; intuition discriminate. }
  destruct (cv2_imwrite rt (fs s) out captioned) as [[written|e] f'] eqn:Hwrite; simpl;
    eexists _, _, _; rewrite <- ?app_assoc; (split; [reflexivity|]); right;
    exists captioned; rewrite Hwrite; reflexivity.
Qed.

End VisualizationFrame.

(** X4.  [create_detection_visualization] returns [True] exactly when the
    screenshot exists and decodes, a reference is loaded, a position is given,
    and drawing the box, drawing the caption and the call of [cv2.imwrite] all
    return without raising, whatever status [cv2.imwrite] returns; in every
    other case it returns [False]. *)
Theorem visualization_true_iff (rt : runtime) (p out : path) (position : option point)
  (s : state rt) :
  (result_of (create_detection_visualization rt p position out) s = Return true <->
   exists x y reference screenshot boxed captioned written f',
     position = Some (x, y) /\
     os_path_exists rt (fs s) p = true /\
     reference_image (self s) = Some reference /\
     cv2_imread rt (fs s) p = Return (Some screenshot) /\
     cv2_rectangle rt screenshot (x, y) (x + shape1 reference, y + shape0 reference)
     = Return boxed /\
     cv2_putText rt boxed "Ice Butterfly Found!" (x, y - 10) = Return captioned /\
     cv2_imwrite rt (fs s) out captioned = (Return written, f')) /\
  (result_of (create_detection_visualization rt p position out) s = Return true \/
   result_of (create_detection_visualization rt p position out) s = Return false).
Proof.
  split; [split|].
  - apply visualization_true_only_after_write.
  - intros (x & y & reference & screenshot & boxed & captioned & written & f' &
            -> & Hex & Href & Hread & Hbox & Htext & Hwrite).
    unfold result_of.
    rewrite (visualization_ignores_write_status rt p out x y s reference screenshot boxed
               captioned written f'); auto.
  - destruct (visualization_never_raises rt p position out s) as [[|] E]; auto.
Qed.

(** X5.  [create_detection_visualization] never changes the detector, and the
    file system only through its one call of [cv2.imwrite] on the output path:
    when that call is not reached the file system is as before.  With the
    position [None] that the detection methods return in their null result, it
    returns [False] and writes nothing. *)
Theorem visualization_writes_only_output (rt : runtime) (p out : path)
  (position : option point) (s : state rt) :
  self (snd (create_detection_visualization rt p position out s)) = self s /\
  (fs (snd (create_detection_visualization rt p position out s)) = fs s \/
   exists img,
     fs (snd (create_detection_visualization rt p position out s))
     = snd (cv2_imwrite rt (fs s) out img)) /\
  (position = None ->
   result_of (create_detection_visualization rt p position out) s = Return false /\
   fs (snd (create_detection_visualization rt p position out s)) = fs s).
Proof.
  destruct (visualization_frame rt p out position s) as (b & f' & t & E & Hf).
  split; [rewrite E; reflexivity|]. split.
  - rewrite E. simpl. destruct Hf as [[-> _]|[img ->]]; [left; reflexivity|right; eauto].
  - intros ->. clear E Hf. py_run; split; reflexivity.
Qed.

(** ** The multi-scale method and the world *)

Section MultiScaleFrame.

Variable rt : runtime.

#[local] Arguments for_each : simpl never.
#[local] Opaque scales.

Ltac frame_side :=
  repeat split; simpl; auto; try (intros q; simpl; intuition discriminate).

Lemma multi_frame (p : path) (s : state rt) :
  exists d t,
    detect_multiple_scales rt p s = (Return d, mkState (self s) (fs s) (trace s ++ t)) /\
    (length (filter file_event t) <= 2)%nat /\
    (length (filter is_imread t) <= 1)%nat /\
    forall q, ~ In (ev_imwrite q) t.
Proof.
  py_unfold.
  destruct (reference_image (self s)) as [reference|] eqn:Href; simpl.
  2:{ exists not_found, []. rewrite app_nil_r. destruct s; simpl.
      split; [reflexivity|]. frame_side. }
  destruct (os_path_exists rt (fs s) p) eqn:Hex; simpl.
  2:{ exists not_found, [ev_exists p]. split; [reflexivity|]. frame_side. }
  destruct (cv2_imread rt (fs s) p) as [[screenshot|]|e] eqn:Hread; simpl.
  2:{ exists not_found, [ev_exists p; ev_imread p]. rewrite <- app_assoc.
      split; [reflexivity|]. frame_side. }
  2:{ exists not_found,
        [ev_exists p; ev_imread p; ev_log ERROR "Error during multi-scale detection"].
      rewrite <- !app_assoc. split; [reflexivity|]. frame_side. }
  rewrite (for_each_probes rt screenshot reference) by exact Href.
  destruct (run_probes _ _) as [[best pos]|e]; simpl.
  - destruct (threshold (self s) <=? best)%float; simpl;
      eexists _, [ev_exists p; ev_imread p; _]; rewrite <- !app_assoc;
      (split; [reflexivity|]); frame_side.
  - eexists _, [ev_exists p; ev_imread p; _]; rewrite <- !app_assoc;
      (split; [reflexivity|]); frame_side.
Qed.

Lemma multi_depends_on_object_and_files (p : path) (s s' : state rt) :
  self s' = self s -> fs s' = fs s ->
  result_of (detect_multiple_scales rt p) s' = result_of (detect_multiple_scales rt p) s.
Proof.
  destruct s as [o f t], s' as [o' f' t']. simpl. intros -> ->.
  py_unfold.
  destruct (reference_image o) as [reference|] eqn:Href; simpl; [|reflexivity].
  destruct (os_path_exists rt f p); simpl; [|reflexivity].
  destruct (cv2_imread rt f p) as [[screenshot|]|e]; simpl; try reflexivity.
  rewrite !(for_each_probes rt screenshot reference) by exact Href.
  destruct (run_probes _ _) as [[best pos]|e]; simpl; [|reflexivity].
  destruct (threshold o <=? best)%float; reflexivity.
Qed.

End MultiScaleFrame.

(** X6.  [detect_multiple_scales] always returns; it leaves the detector and
    the file system as they were; it calls on the file system at most twice
    and reads the screenshot at most once, however many scales it tries, and
    writes no file; and a second call on the same detector and file system
    returns the same triple. *)
Theorem multi_scale_pure_and_reads_once (rt : runtime) (p : path) (s : state rt) :
  exists d t,
    detect_multiple_scales rt p s = (Return d, mkState (self s) (fs s) (trace s ++ t)) /\
    (length (filter file_event t) <= 2)%nat /\
    (length (filter is_imread t) <= 1)%nat /\
    (forall q, ~ In (ev_imwrite q) t) /\
    result_of (detect_multiple_scales rt p) (snd (detect_multiple_scales rt p s)) = Return d.
Proof.
  destruct (multi_frame rt p s) as (d & t & E & Hfiles & Hread & Hwrite).
  exists d, t. repeat split; auto.
  rewrite (multi_depends_on_object_and_files rt p s); try (rewrite E; reflexivity).
  unfold result_of. rewrite E. reflexivity.
Qed.

(** X7.  When the probe at scale 1.0 is the match of the unresized reference
    (resizing an image to its own size returns it) and no library call raises,
    the multi-scale confidence is not below the single-scale confidence, and
    whenever [detect_ice_butterfly] reports found so does
    [detect_multiple_scales]. *)
Theorem multi_scale_finds_what_single_scale_finds (rt : runtime) (p : path) (s : state rt)
  (reference screenshot : image) (v : float) (q : point) :
  reference_image (self s) = Some reference ->
  os_path_exists rt (fs s) p = true ->
  cv2_imread rt (fs s) p = Return (Some screenshot) ->
  best_match rt screenshot reference = Return (v, q) ->
  probe_scale rt reference screenshot 1 = Scored v q ->
  no_failure (map (probe_scale rt reference screenshot) scales) ->
  exists found confidence pos,
    result_of (detect_ice_butterfly rt p) s
    = Return ((threshold (self s) <=? v)%float, v, Some q) /\
    result_of (detect_multiple_scales rt p) s = Return (found, confidence, pos) /\
    (confidence <? v)%float = false /\
    ((threshold (self s) <=? v)%float = true -> found = true).
Proof.
  intros Href Hex Hread Hbest Hone Hok.
  rewrite (detect_returns_peak rt p s reference screenshot v q) by assumption.
  rewrite (multi_runs_probes rt p s reference screenshot Href Hex Hread).
  destruct (run_probes_peak _ Hok [] (0%float, None) first_peak_start)
    as (best & pos & Hrun & Hmax & _).
  assert (Hnonneg : (0 <=? best)%float = true).
  { apply (run_probes_nonneg (map (probe_scale rt reference screenshot) scales)
             (0%float, None) best pos); [reflexivity|exact Hrun]. }
  assert (Hin : In (v, q) (scored (map (probe_scale rt reference screenshot) scales))).
  { unfold scored. apply in_flat_map. exists (Scored v q). split; [|left; reflexivity].
    rewrite <- Hone. apply in_map. unfold scales. simpl. auto. }
  rewrite Hrun. eexists _, best, pos. split; [reflexivity|]. split; [reflexivity|].
  split; [apply (Hmax v q Hin)|].
  intros Hthr.
  exact (leb_carries _ v best 0%float Hthr (Hmax v q Hin) Hnonneg).
Qed.

(** The four-colour patch in the canvas that holds it: both methods find it. *)
Lemma multi_scale_finds_what_single_scale_finds_witness :
  let s := @mkState SimCV.rt (loaded "ref.png" 0.8 Fixtures.patch)
             (Fixtures.one_file "shot.png" Fixtures.canvas_with_patch) [] in
  exists found confidence pos,
    result_of (detect_ice_butterfly SimCV.rt "shot.png") s
    = Return ((0.8 <=? 1)%float, 1%float, Some (3, 2)) /\
    result_of (detect_multiple_scales SimCV.rt "shot.png") s
    = Return (found, confidence, pos) /\
    (confidence <? 1)%float = false /\
    ((0.8 <=? 1)%float = true -> found = true).
Proof.
  intros s.
  apply (multi_scale_finds_what_single_scale_finds SimCV.rt "shot.png" s
           Fixtures.patch Fixtures.canvas_with_patch 1%float (3, 2)); try reflexivity.
  intros e He. vm_compute in He.
  repeat (destruct He as [He|He]; [discriminate He|]). exact He.
Defined.

(** ** The start-up checks *)

Section Startup.

Variable rt : runtime.
Variable u : utils rt.

Lemma log_errors_run (errors : list string) (s : state rt) :
  log_errors errors s
  = (Return tt,
     mkState (self s) (fs s)
       (trace s ++ map (fun error => ev_log ERROR (String.append "  - " error)) errors)).
Proof.
  revert s. induction errors as [|error errors IH]; intros s.
  - simpl. rewrite app_nil_r. destruct s; reflexivity.
  - simpl. unfold bind, log, emit. rewrite IH. simpl. rewrite <- app_assoc. reflexivity.
Qed.

Lemma startup_invalid (cls : Config) (s : state rt) (f1 : files rt) :
  validate cls <> [] ->
  setup_logging u (LOG_LEVEL cls) (fs s) = (Return tt, f1) ->
  validate_environment rt u cls s
  = (Return false,
     mkState (self s) f1
       (trace s ++ ev_log ERROR "Configuration validation failed:"
          :: map (fun error => ev_log ERROR (String.append "  - " error)) (validate cls))).
Proof.
  intros Hbad Hsetup. unfold validate_environment, bind at 1, external. rewrite Hsetup.
  destruct (validate cls) as [|e l] eqn:E; [congruence|].
  unfold bind, log, emit, ret. rewrite log_errors_run. simpl.
  rewrite <- app_assoc. reflexivity.
Qed.

Lemma startup_valid (cls : Config) (s : state rt) (f1 f2 : files rt) :
  validate cls = [] ->
  setup_logging u (LOG_LEVEL cls) (fs s) = (Return tt, f1) ->
  create_reference_image_if_missing u f1 = (Return tt, f2) ->
  validate_environment rt u cls s
  = (Return (os_path_exists rt f2 (REFERENCE_IMAGE_PATH cls)),
     mkState (self s) f2
       (trace s ++ [ev_exists (REFERENCE_IMAGE_PATH cls);
                    if os_path_exists rt f2 (REFERENCE_IMAGE_PATH cls)
                    then ev_log INFO "Environment validation successful"
                    else ev_log ERROR "Required file not found"])).
Proof.
  intros Hok Hsetup Hcreate. unfold validate_environment, bind at 1, external.
  rewrite Hsetup, Hok. unfold bind at 1. simpl. rewrite Hcreate. simpl.
  unfold bind, path_exists, log, emit, ret. simpl.
  destruct (os_path_exists rt f2 (REFERENCE_IMAGE_PATH cls)); simpl;
    rewrite <- app_assoc; reflexivity.
Qed.

End Startup.

(** X8.  With a configuration that [Config.validate] rejects,
    [validate_environment] returns [False] after logging the header and one
    line per error, in order; it does not call
    [create_reference_image_if_missing] and does not test any path, so the
    file system is as [setup_logging] left it. *)
Theorem invalid_config_stops_startup (rt : runtime) (u : utils rt) (cls : Config)
  (s : state rt) (f1 : files rt) :
  validate cls <> [] ->
  setup_logging u (LOG_LEVEL cls) (fs s) = (Return tt, f1) ->
  validate_environment rt u cls s
  = (Return false,
     mkState (self s) f1
       (trace s ++ ev_log ERROR "Configuration validation failed:"
          :: map (fun error => ev_log ERROR (String.append "  - " error)) (validate cls))) /\
  forallb (fun e => negb (file_event e))
    (ev_log ERROR "Configuration validation failed:"
       :: map (fun error => ev_log ERROR (String.append "  - " error)) (validate cls)) = true.
Proof.
  intros Hbad Hsetup. split; [apply startup_invalid; assumption|].
  simpl. clear. induction (validate cls) as [|e l IH]; [reflexivity|exact IH].
Qed.

(** The default configuration without a token and with threshold 2. *)
Lemma invalid_config_stops_startup_witness :
  let cls := default_config "" 2 in
  let s := @mkState SimCV.rt blank Fixtures.empty_disk [] in
  validate_environment SimCV.rt idle_utils cls s
  = (Return false,
     @mkState SimCV.rt blank Fixtures.empty_disk
       (ev_log ERROR "Configuration validation failed:"
          :: map (fun error => ev_log ERROR (String.append "  - " error)) (validate cls))) /\
  forallb (fun e => negb (file_event e))
    (ev_log ERROR "Configuration validation failed:"
       :: map (fun error => ev_log ERROR (String.append "  - " error)) (validate cls)) = true.
Proof.
  intros cls s.
  apply (invalid_config_stops_startup SimCV.rt idle_utils cls s Fixtures.empty_disk).
  - discriminate.
  - reflexivity.
Defined.

(** X9.  After [setup_logging] has returned, [validate_environment] returns
    [True] exactly when the configuration is accepted,
    [create_reference_image_if_missing] returns without raising, and the
    reference path exists in the file system it leaves. *)
Theorem startup_check_true_iff (rt : runtime) (u : utils rt) (cls : Config)
  (s : state rt) (f1 : files rt) :
  setup_logging u (LOG_LEVEL cls) (fs s) = (Return tt, f1) ->
  (result_of (validate_environment rt u cls) s = Return true <->
   validate cls = [] /\
   exists f2,
     create_reference_image_if_missing u f1 = (Return tt, f2) /\
     os_path_exists rt f2 (REFERENCE_IMAGE_PATH cls) = true).
Proof.
  intros Hsetup. split.
  - intros Htrue.
    destruct (validate cls) as [|e l] eqn:Hval.
    + split; [reflexivity|].
      destruct (create_reference_image_if_missing u f1) as [[[]|e] f2] eqn:Hcreate.
      * exists f2. split; [reflexivity|].
        unfold result_of in Htrue.
        rewrite (startup_valid rt u cls s f1 f2 Hval Hsetup Hcreate) in Htrue.
        simpl in Htrue. congruence.
      * exfalso. revert Htrue.
        unfold result_of, validate_environment, bind at 1, external.
        rewrite Hsetup, Hval. unfold bind at 1. simpl. rewrite Hcreate. discriminate.
    + exfalso. unfold result_of in Htrue.
      rewrite (startup_invalid rt u cls s f1) in Htrue by (try congruence; assumption).
      discriminate Htrue.
  - intros (Hval & f2 & Hcreate & Hex). unfold result_of.
    rewrite (startup_valid rt u cls s f1 f2 Hval Hsetup Hcreate). simpl. congruence.
Qed.

(** The default configuration and a disk that holds the reference. *)
Lemma startup_check_true_iff_witness :
  let cls := default_config "token" 0.8 in
  let f := Fixtures.one_file "ice_butterfly_reference.png" Fixtures.patch in
  result_of (validate_environment SimCV.rt idle_utils cls) (@mkState SimCV.rt blank f [])
  = Return true <->
  validate cls = [] /\
  exists f2,
    create_reference_image_if_missing idle_utils f = (Return tt, f2) /\
    os_path_exists SimCV.rt f2 (REFERENCE_IMAGE_PATH cls) = true.
Proof.
  intros cls f.
  apply (startup_check_true_iff SimCV.rt idle_utils cls (@mkState SimCV.rt blank f []) f).
  reflexivity.
Defined.

(** X10.  The start-up checks test that the reference file exists, not that it
    is an image: when it exists and cannot be decoded, [validate_environment]
    returns [True], and the detector then built from the configuration has no
    reference image, so that every call of [detect_ice_butterfly] and of
    [detect_multiple_scales] returns (False, 0.0, None). *)
Theorem startup_accepts_undecodable_reference (rt : runtime) (u : utils rt) (cls : Config)
  (s : state rt) (f1 f2 : files rt) :
  validate cls = [] ->
  setup_logging u (LOG_LEVEL cls) (fs s) = (Return tt, f1) ->
  create_reference_image_if_missing u f1 = (Return tt, f2) ->
  os_path_exists rt f2 (REFERENCE_IMAGE_PATH cls) = true ->
  cv2_imread rt f2 (REFERENCE_IMAGE_PATH cls) = Return None ->
  result_of (validate_environment rt u cls) s = Return true /\
  fs (snd (validate_environment rt u cls s)) = f2 /\
  let me := self (snd (construct_from_config rt cls f2)) in
  reference_image me = None /\
  forall (p : path) (f' : files rt) (t : list event),
    result_of (detect_ice_butterfly rt p) (mkState me f' t) = Return not_found /\
    result_of (detect_multiple_scales rt p) (mkState me f' t) = Return not_found.
Proof.
  intros Hval Hsetup Hcreate Hex Hread.
  unfold result_of at 1.
  rewrite (startup_valid rt u cls s f1 f2 Hval Hsetup Hcreate). simpl. rewrite Hex.
  split; [reflexivity|]. split; [reflexivity|].
  unfold construct_from_config.
  destruct (construct_unavailable rt (REFERENCE_IMAGE_PATH cls) (MATCH_THRESHOLD cls) f2
              (or_intror (or_introl Hread))) as (t0 & msg & ->).
  simpl. split; [reflexivity|]. intros p f' t. split.
  - unfold result_of. rewrite detect_unavailable by reflexivity. reflexivity.
  - apply multi_short_circuit. left. reflexivity.
Qed.

(** The reference path holds bytes that are no image. *)
Lemma startup_accepts_undecodable_reference_witness :
  let cls := default_config "token" 0.8 in
  let f : files SimCV.rt :=
    SimCV.mkDisk [] [("ice_butterfly_reference.png"%string, SimCV.Garbage)] in
  let s := @mkState SimCV.rt blank f [] in
  result_of (validate_environment SimCV.rt idle_utils cls) s = Return true /\
  fs (snd (validate_environment SimCV.rt idle_utils cls s)) = f /\
  let me := self (snd (construct_from_config SimCV.rt cls f)) in
  reference_image me = None /\
  forall (p : path) (f' : files SimCV.rt) (t : list event),
    result_of (detect_ice_butterfly SimCV.rt p) (mkState me f' t) = Return not_found /\
    result_of (detect_multiple_scales SimCV.rt p) (mkState me f' t) = Return not_found.
Proof.
  intros cls f s.
  apply (startup_accepts_undecodable_reference SimCV.rt idle_utils cls s f f); reflexivity.
Defined.


(** ** The shop monitor *)

Section ShopFrames.

Import Shop.

Variable br : browser.

Lemma atry_returns {A} (body : Act br A) (handler : pyexc -> Act br A) :
  (forall e, returns (handler e)) -> returns (atry body handler).
Proof.
  intros Hh w. unfold atry. destruct (body w) as [[a|e] w']; [eexists; reflexivity|].
  apply Hh.
Qed.

Lemma abind_returns {A B} (m : Act br A) (k : A -> Act br B) :
  returns m -> (forall a, returns (k a)) -> returns (abind m k).
Proof.
  intros Hm Hk w. unfold abind. destruct (Hm w) as [a Ha].
  destruct (m w) as [[a'|e] w']; simpl in Ha; [|discriminate]. apply Hk.
Qed.

Lemma note_returns lvl msg : returns (@note br lvl msg).
Proof. intros w. eexists. reflexivity. Qed.

Lemma aret_returns {A} (a : A) : returns (@aret br A a).
Proof. intros w. eexists. reflexivity. Qed.

Lemma abind_keeps {A B} (m : Act br A) (k : A -> Act br B) :
  keeps_mon m -> (forall a, keeps_mon (k a)) -> keeps_mon (abind m k).
Proof.
  intros Hm Hk w. unfold abind. specialize (Hm w).
  destruct (m w) as [[a|e] w']; simpl in *; [|exact Hm].
  rewrite Hk. exact Hm.
Qed.

Lemma atry_keeps {A} (body : Act br A) (handler : pyexc -> Act br A) :
  keeps_mon body -> (forall e, keeps_mon (handler e)) -> keeps_mon (atry body handler).
Proof.
  intros Hb Hh w. unfold atry. specialize (Hb w).
  destruct (body w) as [[a|e] w']; simpl in *; [exact Hb|].
  rewrite Hh. exact Hb.
Qed.

Lemma note_keeps lvl msg : keeps_mon (@note br lvl msg).
Proof. intros w. reflexivity. Qed.

Lemma aret_keeps {A} (a : A) : keeps_mon (@aret br A a).
Proof. intros w. reflexivity. Qed.

Lemma raise_keeps {A} e : keeps_mon (@raise br A e).
Proof. intros w. reflexivity. Qed.

Lemma call_keeps {A} (op : page br -> result A * page br) : keeps_mon (call op).
Proof. intros w. unfold call. destruct (op (outside w)). reflexivity. Qed.

Lemma ask_keeps {A} (op : page br -> result A) : keeps_mon (ask op).
Proof. intros w. reflexivity. Qed.

Lemma time_sleep_keeps n : keeps_mon (@time_sleep br n).
Proof. intros w. reflexivity. Qed.

Lemma get_mon_keeps : keeps_mon (@get_mon br).
Proof. intros w. reflexivity. Qed.

Lemma with_driver_keeps {A} (k : handle br -> Act br A) :
  (forall h, keeps_mon (k h)) -> keeps_mon (with_driver k).
Proof.
  intros Hk. unfold with_driver. apply abind_keeps; [apply get_mon_keeps|].
  intros me. destruct (driver me); [apply Hk|apply raise_keeps].
Qed.

End ShopFrames.

Create HintDb act.
#[export] Hint Resolve atry_returns abind_returns note_returns aret_returns : act.
#[export] Hint Resolve abind_keeps atry_keeps note_keeps aret_keeps raise_keeps call_keeps
  ask_keeps time_sleep_keeps get_mon_keeps with_driver_keeps : act.

Section ShopFacts.

Import Shop.

Variable br : browser.
Variable cls : Config.
Variable login_as_guest : Act br bool.
Variable imported_detect_ice_butterfly : path -> Act br bool.

Lemma first_clickable_keeps (elements : list (element br)) :
  keeps_mon (first_clickable br elements).
Proof.
  induction elements as [|el rest IH]; simpl; [apply aret_keeps|].
  apply abind_keeps; [apply ask_keeps|]. intros d.
  apply abind_keeps; [destruct d; auto with act|]. intros c.
  destruct c; auto with act.
Qed.

Lemma find_button_keeps (msg : string) (selectors : list string) :
  keeps_mon (find_button br msg selectors).
Proof.
  induction selectors as [|selector rest IH]; simpl; [apply aret_keeps|].
  apply abind_keeps.
  - unfold try_selector. apply atry_keeps; [|auto with act].
    apply abind_keeps; [auto with act|]. intros els.
    apply abind_keeps; [apply first_clickable_keeps|]. intros b.
    apply abind_keeps; [destruct b; auto with act|]. auto with act.
  - intros [el|]; auto with act.
Qed.

Lemma click_button_keeps button pause shot msg :
  keeps_mon (click_button br button pause shot msg).
Proof.
  unfold click_button. repeat (apply abind_keeps; [auto with act|intros ?]).
  auto with act.
Qed.

Lemma navigate_potions_keeps : keeps_mon (_navigate_to_potions_section br).
Proof.
  unfold _navigate_to_potions_section. apply atry_keeps; [|auto with act].
  apply abind_keeps; [auto with act|]. intros _.
  apply abind_keeps; [auto with act|]. intros _.
  apply abind_keeps; [apply find_button_keeps|]. intros [button|]; [|auto with act].
  apply abind_keeps; [apply click_button_keeps|]. auto with act.
Qed.

Lemma navigate_potions_returns : returns (_navigate_to_potions_section br).
Proof. unfold _navigate_to_potions_section. auto with act. Qed.

End ShopFacts.

Ltac act_unfold :=
  unfold Shop.set_driver, Shop.set_is_logged_in, Shop.set_shop_accessible,
    Shop.set_last_screenshot_path, Shop.with_driver in *;
  unfold Shop.atry, Shop.abind, Shop.aret, Shop.raise, Shop.note, Shop.call, Shop.ask,
    Shop.time_sleep, Shop.get_mon, Shop.set_mon in *;
  simpl in *.

Ltac act_run := act_unfold; repeat py_case.

Section ShopRuns.

Import Shop.

Variable br : browser.
Variable cls : Config.
Variable login_as_guest : Act br bool.
Variable imported_detect_ice_butterfly : path -> Act br bool.

Lemma take_screenshot_run (w : world br) :
  exists r w',
    take_screenshot br w = (Ok r, w') /\
    match r with
    | Some p =>
        mon w' = mkShopMonitor (driver (mon w)) (is_logged_in (mon w))
                   (shop_accessible (mon w)) (Some p)
        /\ driver (mon w) <> None
    | None => mon w' = mon w
    end /\
    (driver (mon w) = None -> r = None /\ outside w' = outside w).
Proof.
  unfold take_screenshot. act_run; eexists _, _; (split; [reflexivity|]); simpl;
    repeat split; try congruence; try discriminate.
Qed.

Lemma monitor_run (w : world br) :
  exists w', monitor_for_ice_butterfly br imported_detect_ice_butterfly w = (Ok false, w').
Proof.
  unfold monitor_for_ice_butterfly, atry.
  unfold abind at 1. unfold note at 1.
  unfold abind at 1.
  destruct (_navigate_to_potions_section br _) as [[ok|e] w1];
    [|eexists; reflexivity].
  unfold abind at 1.
  assert (Hwarn : exists w2,
             (if negb ok
              then note WARNING
                     "Could not navigate to potions section, monitoring main shop instead"
              else aret tt) w1 = (Ok tt, w2))
    by (destruct ok; eexists; reflexivity).
  destruct Hwarn as [w2 ->].
  unfold abind at 1. unfold time_sleep at 1.
  unfold abind at 1.
  destruct (take_screenshot br _) as [[[p|]|e] w3]; try (eexists; reflexivity).
  destruct (falsy (Some p)); [eexists; reflexivity|].
  unfold abind at 1. unfold import_from. simpl. eexists; reflexivity.
Qed.

End ShopRuns.

(** X11.  [take_screenshot] never raises.  When it returns a path, the
    monitor had a driver and [last_screenshot_path] is now that path, the
    other fields being as before; when it returns [None], the monitor object
    is unchanged; without a driver it returns [None] and calls nothing
    outside. *)
Theorem take_screenshot_records_path (br : Shop.browser) (w : Shop.world br) :
  exists r w',
    Shop.take_screenshot br w = (Shop.Ok r, w') /\
    match r with
    | Some p =>
        Shop.mon w' = Shop.mkShopMonitor (Shop.driver (Shop.mon w))
                        (Shop.is_logged_in (Shop.mon w)) (Shop.shop_accessible (Shop.mon w))
                        (Some p)
        /\ Shop.driver (Shop.mon w) <> None
    | None => Shop.mon w' = Shop.mon w
    end /\
    (Shop.driver (Shop.mon w) = None -> r = None /\ Shop.outside w' = Shop.outside w).
Proof. apply take_screenshot_run. Qed.

(** X12.  [monitor_for_ice_butterfly] never returns [True] and never raises:
    the module [image_recognition] binds no name [detect_ice_butterfly] (the
    function is a method of the class), so whenever a screenshot was taken
    the import raises [ImportError], which the method's own handler turns into
    [False]; every earlier exit returns [False] too.  This holds whatever the
    browser does. *)
Theorem monitor_never_reports_found (br : Shop.browser)
  (imported_detect_ice_butterfly : path -> Shop.Act br bool) (w : Shop.world br) :
  existsb (String.eqb "detect_ice_butterfly") Shop.image_recognition_names = false /\
  exists w',
    Shop.monitor_for_ice_butterfly br imported_detect_ice_butterfly w = (Shop.Ok false, w').
Proof. split; [reflexivity|apply monitor_run]. Qed.

(** ** Button searches *)

Section ButtonSearch.

Import Shop.

Variable br : browser.

(** The inner loop on a page: it returns an element that is displayed and
    enabled, or none, or raises; it changes nothing. *)
Lemma first_clickable_run (elements : list (element br)) (w : world br) :
  snd (first_clickable br elements w) = w /\
  forall el, fst (first_clickable br elements w) = Ok (Some el) ->
             In el elements /\
             is_displayed br el (outside w) = Ok true /\
             is_enabled br el (outside w) = Ok true.
Proof.
  induction elements as [|x rest [IHw IHel]]; simpl.
  - split; [reflexivity|]. intros el H. discriminate H.
  - unfold abind, ask. simpl.
    destruct (is_displayed br x (outside w)) as [[|]|e] eqn:Hd; simpl.
    + destruct (is_enabled br x (outside w)) as [[|]|e] eqn:He; simpl.
      * split; [reflexivity|]. intros el H. injection H as <-. auto.
      * split; [exact IHw|]. intros el H. destruct (IHel el H) as (? & ? & ?). auto.
      * split; [reflexivity|]. intros el H. discriminate H.
    + unfold aret. simpl.
      split; [exact IHw|]. intros el H. destruct (IHel el H) as (? & ? & ?). auto.
    + split; [reflexivity|]. intros el H. discriminate H.
Qed.

Lemma first_clickable_find (elements : list (element br)) (w : world br)
  (shown enabled : element br -> bool) :
  (forall el, is_displayed br el (outside w) = Ok (shown el)) ->
  (forall el, is_enabled br el (outside w) = Ok (enabled el)) ->
  first_clickable br elements w
  = (Ok (find (fun el => shown el && enabled el) elements), w).
Proof.
  intros Hs He. induction elements as [|x rest IH]; simpl; [reflexivity|].
  unfold abind, ask. simpl. rewrite Hs.
  destruct (shown x); simpl.
  - rewrite He. destruct (enabled x); simpl; [reflexivity|exact IH].
  - unfold aret. simpl. exact IH.
Qed.

(** One selector of a button search. *)
Lemma selector_attempt_run (msg selector : string) (w : world br) :
  exists r t,
    try_selector br msg selector w
    = (Ok r, mkWorld (mon w) (outside w) (notes w ++ t)) /\
    (forall el, r = Some el ->
                is_displayed br el (outside w) = Ok true /\
                is_enabled br el (outside w) = Ok true /\
                exists h elements,
                  driver (mon w) = Some h /\
                  find_elements br h (by_of selector) selector (outside w) = Ok elements /\
                  In el elements) /\
    (r = None -> t = []).
Proof.
  assert (Hnone : exists r t,
             (@Ok (option (element br)) None, w)
             = (Ok r, mkWorld (mon w) (outside w) (notes w ++ t)) /\
             (forall el, r = Some el ->
                is_displayed br el (outside w) = Ok true /\
                is_enabled br el (outside w) = Ok true /\
                exists h elements,
                  driver (mon w) = Some h /\
                  find_elements br h (by_of selector) selector (outside w) = Ok elements /\
                  In el elements) /\
             (r = None -> t = [])).
  { exists None, []. rewrite app_nil_r. destruct w. simpl. repeat split; discriminate. }
  unfold try_selector, atry, with_driver, abind, get_mon, ask, raise, aret.
  destruct (driver (mon w)) as [h|] eqn:Hdrv; [|exact Hnone].
  destruct (find_elements br h (by_of selector) selector (outside w))
    as [elements|e] eqn:Hfind; [|exact Hnone].
  destruct (first_clickable_run elements w) as [Hw Hel].
  destruct (first_clickable br elements w) as [[[el|]|e] w1]; simpl in Hw; subst w1;
    [|exact Hnone|exact Hnone].
  destruct (Hel el eq_refl) as (Hin & Hd & He).
  exists (Some el), [ev_log INFO (String.append msg selector)].
  split; [reflexivity|]. split; [|discriminate].
  intros el' E. injection E as <-. repeat split; auto.
  exists h, elements. auto.
Qed.

Lemma find_button_run (msg : string) (selectors : list string) (w : world br) :
  exists r t,
    find_button br msg selectors w = (Ok r, mkWorld (mon w) (outside w) (notes w ++ t)) /\
    (forall el, r = Some el ->
                is_displayed br el (outside w) = Ok true /\
                is_enabled br el (outside w) = Ok true /\
                exists selector h elements,
                  In selector selectors /\ driver (mon w) = Some h /\
                  find_elements br h (by_of selector) selector (outside w) = Ok elements /\
                  In el elements) /\
    (r = None -> t = []).
Proof.
  induction selectors as [|selector rest IH].
  - exists None, []. rewrite app_nil_r. destruct w. simpl. repeat split; discriminate.
  - simpl. unfold abind at 1.
    destruct (selector_attempt_run msg selector w) as (r1 & t1 & -> & Hr1 & Hn1).
    destruct r1 as [el|].
    + exists (Some el), t1. split; [reflexivity|]. split; [|discriminate].
      intros el' E. destruct (Hr1 el' E) as (Hd & He & h & elements & Hh & Hf & Hin).
      repeat split; auto. exists selector, h, elements. auto.
    + rewrite (Hn1 eq_refl), app_nil_r.
      replace (mkWorld (mon w) (outside w) (notes w)) with w by (destruct w; reflexivity).
      destruct IH as (r & t & E & Hr & Hnone). exists r, t.
      split; [exact E|]. split; [|exact Hnone].
      intros el E'. destruct (Hr el E') as (Hd & He & sel & h & elements & Hin & Hh & Hf & Hel).
      repeat split; auto. exists sel, h, elements. auto.
Qed.

Lemma find_append {A} (f : A -> bool) (l1 l2 : list A) :
  find f (l1 ++ l2) = match find f l1 with Some x => Some x | None => find f l2 end.
Proof.
  induction l1 as [|x l1 IH]; simpl; [reflexivity|]. destruct (f x); [reflexivity|exact IH].
Qed.

Lemma try_selector_find (msg selector : string) (w : world br) (h : handle br)
  (elements : list (element br)) (shown enabled : element br -> bool) :
  driver (mon w) = Some h ->
  find_elements br h (by_of selector) selector (outside w) = Ok elements ->
  (forall el, is_displayed br el (outside w) = Ok (shown el)) ->
  (forall el, is_enabled br el (outside w) = Ok (enabled el)) ->
  fst (try_selector br msg selector w) = Ok (find (fun el => shown el && enabled el) elements)
  /\ (find (fun el => shown el && enabled el) elements = None ->
      snd (try_selector br msg selector w) = w).
Proof.
  intros Hdrv Hfound Hs He.
  unfold try_selector, atry, with_driver, abind, get_mon, ask, raise, aret.
  rewrite Hdrv, Hfound, (first_clickable_find elements w shown enabled Hs He).
  destruct (find (fun el => shown el && enabled el) elements) as [el|]; simpl.
  - split; [reflexivity|discriminate].
  - split; reflexivity.
Qed.

(** With queries that do not raise, the search is a search of the
    concatenated results. *)
Lemma find_button_find (msg : string) (selectors : list string) (w : world br)
  (h : handle br) (found : string -> list (element br)) (shown enabled : element br -> bool) :
  driver (mon w) = Some h ->
  (forall selector, In selector selectors ->
     find_elements br h (by_of selector) selector (outside w) = Ok (found selector)) ->
  (forall el, is_displayed br el (outside w) = Ok (shown el)) ->
  (forall el, is_enabled br el (outside w) = Ok (enabled el)) ->
  fst (find_button br msg selectors w)
  = Ok (find (fun el => shown el && enabled el) (flat_map found selectors)).
Proof.
  intros Hdrv Hfound Hs He.
  induction selectors as [|selector rest IH]; [reflexivity|].
  simpl. unfold abind.
  destruct (try_selector_find msg selector w h (found selector) shown enabled Hdrv
              (Hfound selector (or_introl eq_refl)) Hs He) as [Hfst Hsnd].
  destruct (try_selector br msg selector w) as [r w1]. simpl in Hfst, Hsnd. subst r.
  rewrite find_append.
  destruct (find (fun el => shown el && enabled el) (found selector)) as [el|]; simpl.
  - reflexivity.
  - rewrite (Hsnd eq_refl). apply IH. intros sel Hin. apply Hfound. right. exact Hin.
Qed.

End ButtonSearch.

(** X13.  A button search never raises and changes neither the monitor nor
    the outside; the button it returns, if any, is displayed and enabled and
    is among the elements that one of the selectors finds; it logs only when
    it returns a button. *)
Theorem button_search_sound (br : Shop.browser) (msg : string) (selectors : list string)
  (w : Shop.world br) :
  exists r t,
    Shop.find_button br msg selectors w
    = (Shop.Ok r, Shop.mkWorld (Shop.mon w) (Shop.outside w) (Shop.notes w ++ t)) /\
    (forall el, r = Some el ->
                Shop.is_displayed br el (Shop.outside w) = Shop.Ok true /\
                Shop.is_enabled br el (Shop.outside w) = Shop.Ok true /\
                exists selector h elements,
                  In selector selectors /\ Shop.driver (Shop.mon w) = Some h /\
                  Shop.find_elements br h (Shop.by_of selector) selector (Shop.outside w)
                  = Shop.Ok elements /\
                  In el elements) /\
    (r = None -> t = []).
Proof. apply find_button_run. Qed.

(** X14.  First match wins: when no query raises, a button search returns the
    first displayed and enabled element of the results of the selectors taken
    in order, and nothing when there is none. *)
Theorem button_search_first_match (br : Shop.browser) (msg : string)
  (selectors : list string) (w : Shop.world br) (h : Shop.handle br)
  (found : string -> list (Shop.element br)) (shown enabled : Shop.element br -> bool) :
  Shop.driver (Shop.mon w) = Some h ->
  (forall selector, In selector selectors ->
     Shop.find_elements br h (Shop.by_of selector) selector (Shop.outside w)
     = Shop.Ok (found selector)) ->
  (forall el, Shop.is_displayed br el (Shop.outside w) = Shop.Ok (shown el)) ->
  (forall el, Shop.is_enabled br el (Shop.outside w) = Shop.Ok (enabled el)) ->
  fst (Shop.find_button br msg selectors w)
  = Shop.Ok (find (fun el => shown el && enabled el) (flat_map found selectors)).
Proof. apply find_button_find. Qed.

(** The simulated page: every selector finds the elements 1, 2, 3; element 2
    is the first that is displayed. *)
Lemma button_search_first_match_witness :
  fst (Shop.find_button (Shop.sim true) "Found shop button with selector: "
         Shop.shop_button_selectors
         (Shop.sim_world true true))
  = Shop.Ok (find (fun el => Nat.even el && true)
               (flat_map (fun _ => [1; 2; 3]%nat) Shop.shop_button_selectors)).
Proof.
  apply (button_search_first_match (Shop.sim true) "Found shop button with selector: "
           Shop.shop_button_selectors
           (Shop.sim_world true true) tt (fun _ => [1; 2; 3]%nat) Nat.even (fun _ => true));
    intros; reflexivity.
Defined.

Section ShopSessions.

Import Shop.

Variable br : browser.
Variable cls : Config.
Variable login_as_guest : Act br bool.

Lemma setup_driver_run (w : world br) :
  exists b w',
    setup_driver br cls w = (Ok b, w') /\
    (b = true -> driver (mon w') <> None) /\
    is_logged_in (mon w') = is_logged_in (mon w) /\
    shop_accessible (mon w') = shop_accessible (mon w) /\
    last_screenshot_path (mon w') = last_screenshot_path (mon w) /\
    ((forall opts pg, exists e, fst (uc_Chrome br opts pg) = Err e) ->
     (forall exe opts pg, exists e, fst (webdriver_Chrome br exe opts pg) = Err e) ->
     b = false /\ driver (mon w') = driver (mon w)).
Proof.
  unfold setup_driver.
  act_run; eexists _, _; (split; [reflexivity|]); simpl;
    (split; [try discriminate; intros _; discriminate|]);
    (split; [reflexivity|]); (split; [reflexivity|]); (split; [reflexivity|]);
    intros Huc Hwd;
    repeat match goal with
           | H : uc_Chrome br ?o ?pg = (Ok _, _) |- _ =>
               destruct (Huc o pg) as [e' He']; rewrite H in He'; discriminate He'
           | H : webdriver_Chrome br ?x ?o ?pg = (Ok _, _) |- _ =>
               destruct (Hwd x o pg) as [e' He']; rewrite H in He'; discriminate He'
           end;
    split; reflexivity.
Qed.

Lemma access_shop_run (w : world br) :
  exists b w',
    access_shop br w = (Ok b, w') /\
    (b = true ->
     mon w' = mkShopMonitor (driver (mon w)) (is_logged_in (mon w)) true
                (last_screenshot_path (mon w))) /\
    (b = false -> mon w' = mon w).
Proof.
  unfold access_shop, atry.
  set (body := abind (note INFO "Attempting to access shop...") _).
  assert (Hbody : forall w0 r w1, body w0 = (r, w1) ->
            match r with
            | Ok true => mon w1 = mkShopMonitor (driver (mon w0)) (is_logged_in (mon w0)) true
                                    (last_screenshot_path (mon w0))
            | _ => mon w1 = mon w0
            end).
  { intros w0 r w1. subst body. unfold abind at 1, note at 1.
    unfold abind at 1, time_sleep at 1. unfold abind at 1.
    match goal with |- context [with_driver ?k ?x] =>
      assert (Hk := with_driver_keeps br k (fun h => call_keeps br _) x);
      destruct (with_driver k x) as [[u|e] w2] end; simpl in Hk;
      [|intros E; injection E as <- <-; exact Hk].
    unfold abind at 1.
    match goal with |- context [find_button ?b ?m ?l ?x] =>
      assert (Hf := find_button_keeps b m l x);
      destruct (find_button b m l x) as [[[button|]|e] w3] end; simpl in Hf;
      [| intros E; unfold abind, note, aret in E; simpl in E; injection E as <- <-;
         simpl; congruence
       | intros E; injection E as <- <-; congruence].
    unfold abind at 1.
    match goal with |- context [click_button ?b ?bt ?p ?s ?m ?x] =>
      assert (Hc := click_button_keeps b bt p s m x);
      destruct (click_button b bt p s m x) as [[u'|e] w4] end; simpl in Hc;
      [|intros E; injection E as <- <-; congruence].
    unfold abind at 1.
    assert (Hn := navigate_potions_keeps br w4).
    destruct (_navigate_to_potions_section br w4) as [[ok|e] w5]; simpl in Hn;
      [|intros E; injection E as <- <-; congruence].
    destruct ok; act_unfold; intros E; injection E as <- <-; simpl;
      rewrite Hn, Hc, Hf, Hk; reflexivity. }
  destruct (body w) as [[b|e] w1] eqn:E; specialize (Hbody w _ _ E).
  - exists b, w1. split; [reflexivity|]. destruct b; split; congruence.
  - eexists _, _. unfold abind, note, aret. simpl. split; [reflexivity|].
    simpl. split; [discriminate|]. intros _. exact Hbody.
Qed.

End ShopSessions.

Section ShopRestart.

Import Shop.

Variable br : browser.
Variable cls : Config.
Variable login_as_guest : Act br bool.

Lemma restart_session_returns : returns (restart_session br cls login_as_guest).
Proof. unfold restart_session. auto with act. Qed.

Lemma restart_without_browser (w : world br) :
  (forall opts pg, exists e, fst (uc_Chrome br opts pg) = Err e) ->
  (forall exe opts pg, exists e, fst (webdriver_Chrome br exe opts pg) = Err e) ->
  exists w',
    restart_session br cls login_as_guest w = (Ok false, w') /\
    mon w' = mkShopMonitor None false false (last_screenshot_path (mon w)).
Proof.
  intros Huc Hwd. unfold restart_session. act_unfold.
  destruct (driver (mon w)) as [h|]; simpl;
    [destruct (driver_quit br h (outside w)) as [[u|e] pg]; simpl|];
    match goal with
    | |- context [setup_driver br cls ?W] =>
        destruct (setup_driver_run br cls W) as (b & w' & Hsetup & _ & Hl & Hs & Hp & Hfail);
        destruct (Hfail Huc Hwd) as [-> Hd]; rewrite Hsetup
    end;
    simpl; exists w'; (split; [reflexivity|]);
    destruct (mon w') as [d l s p]; simpl in *; congruence.
Qed.

Lemma cleanup_run (w : world br) :
  exists w',
    cleanup br w = (Ok tt, w') /\
    (mon w' = mkShopMonitor None (is_logged_in (mon w)) (shop_accessible (mon w))
                (last_screenshot_path (mon w))
     \/ exists h e,
          driver (mon w) = Some h /\ fst (driver_quit br h (outside w)) = Err e /\
          mon w' = mon w).
Proof.
  unfold cleanup. act_unfold. destruct (driver (mon w)) as [h|] eqn:Hd; simpl.
  - destruct (driver_quit br h (outside w)) as [[u|e] pg] eqn:Hq; simpl;
      eexists; (split; [reflexivity|]); simpl.
    + left. reflexivity.
    + right. exists h, e. rewrite Hq. auto.
  - eexists. split; [reflexivity|]. simpl. left.
    destruct (mon w) as [d l s p]. simpl in *. congruence.
Qed.

End ShopRestart.

(** X15.  [setup_driver] never raises; when it returns [True] the monitor has
    a driver; it changes no other field of the monitor; and when neither
    Chrome constructor can start a browser it returns [False] and leaves the
    driver field as it was. *)
Theorem setup_driver_outcome (br : Shop.browser) (cls : Config) (w : Shop.world br) :
  exists b w',
    Shop.setup_driver br cls w = (Shop.Ok b, w') /\
    (b = true -> Shop.driver (Shop.mon w') <> None) /\
    Shop.is_logged_in (Shop.mon w') = Shop.is_logged_in (Shop.mon w) /\
    Shop.shop_accessible (Shop.mon w') = Shop.shop_accessible (Shop.mon w) /\
    Shop.last_screenshot_path (Shop.mon w') = Shop.last_screenshot_path (Shop.mon w) /\
    ((forall opts pg, exists e, fst (Shop.uc_Chrome br opts pg) = Shop.Err e) ->
     (forall exe opts pg, exists e, fst (Shop.webdriver_Chrome br exe opts pg) = Shop.Err e) ->
     b = false /\ Shop.driver (Shop.mon w') = Shop.driver (Shop.mon w)).
Proof. apply setup_driver_run. Qed.

(** X16.  [access_shop] never raises; when it returns [True] the monitor is
    marked [shop_accessible], also when the potions section could not be
    reached, and nothing else of the monitor has changed; when it returns
    [False] the monitor is unchanged. *)
Theorem access_shop_marks_accessible (br : Shop.browser) (w : Shop.world br) :
  exists b w',
    Shop.access_shop br w = (Shop.Ok b, w') /\
    (b = true ->
     Shop.mon w' = Shop.mkShopMonitor (Shop.driver (Shop.mon w))
                     (Shop.is_logged_in (Shop.mon w)) true
                     (Shop.last_screenshot_path (Shop.mon w))) /\
    (b = false -> Shop.mon w' = Shop.mon w).
Proof. apply access_shop_run. Qed.

(** X17.  [restart_session] never raises, whatever the steps it calls do; and
    when no browser can be started it returns [False] and leaves the monitor
    without driver, not logged in and with the shop not accessible, the last
    screenshot path being kept. *)
Theorem restart_session_outcome (br : Shop.browser) (cls : Config)
  (login_as_guest : Shop.Act br bool) (w : Shop.world br) :
  (exists b, fst (Shop.restart_session br cls login_as_guest w) = Shop.Ok b) /\
  ((forall opts pg, exists e, fst (Shop.uc_Chrome br opts pg) = Shop.Err e) ->
   (forall exe opts pg, exists e, fst (Shop.webdriver_Chrome br exe opts pg) = Shop.Err e) ->
   exists w',
     Shop.restart_session br cls login_as_guest w = (Shop.Ok false, w') /\
     Shop.mon w' = Shop.mkShopMonitor None false false
                     (Shop.last_screenshot_path (Shop.mon w))).
Proof.
  split; [apply restart_session_returns|apply restart_without_browser].
Qed.

(** A restart of a logged-in monitor when Chrome does not start. *)
Lemma restart_session_outcome_witness :
  let w := @Shop.mkWorld (Shop.sim false)
             (@Shop.mkShopMonitor (Shop.sim false) (Some tt) true true
                (Some "screenshots/screenshot.png"%string)) 0%nat [] in
  exists w',
    Shop.restart_session (Shop.sim false) (default_config "token" 0.8)
      (fun w0 => (Shop.Ok true, w0)) w = (Shop.Ok false, w') /\
    Shop.mon w' = Shop.mkShopMonitor None false false
                    (Some "screenshots/screenshot.png"%string).
Proof.
  intros w.
  apply (proj2 (restart_session_outcome (Shop.sim false) (default_config "token" 0.8)
                  (fun w0 => (Shop.Ok true, w0)) w));
    intros; eexists; reflexivity.
Defined.

(** X18.  [cleanup] never raises; afterwards the monitor has no driver and
    its other fields are as before, unless closing the driver raised, in
    which case the monitor is unchanged and still holds the driver. *)
Theorem cleanup_drops_driver (br : Shop.browser) (w : Shop.world br) :
  exists w',
    Shop.cleanup br w = (Shop.Ok tt, w') /\
    (Shop.mon w' = Shop.mkShopMonitor None (Shop.is_logged_in (Shop.mon w))
                     (Shop.shop_accessible (Shop.mon w))
                     (Shop.last_screenshot_path (Shop.mon w))
     \/ exists h e,
          Shop.driver (Shop.mon w) = Some h /\
          fst (Shop.driver_quit br h (Shop.outside w)) = Shop.Err e /\
          Shop.mon w' = Shop.mon w).
Proof. apply cleanup_run. Qed.


(** ** The bot *)

Ltac bot_unfold :=
  unfold Bot.start_monitoring_task, Bot.start_status_update_task, Bot.halt_monitoring_task,
    Bot.halt_status_update_task, Bot.set_monitoring_active, Bot.set_start_time,
    Bot.count_check, Bot.send_error_message, Bot.send_success_message,
    Bot.exists_or_none in *;
  unfold Bot.btry, Bot.bbind, Bot.bret, Bot.fail, Bot.get_bot, Bot.set_bot, Bot.blog,
    Bot.in_shop, Bot.in_vision, Bot.in_chat in *;
  simpl in *.

Section BotFacts.

Import Bot.

Variable rt : runtime.
Variable br : Shop.browser.
Variable dc : discord rt.
Variable cls : Config.
Variable login_as_guest : Shop.Act br bool.
Variable imported_detect_ice_butterfly : path -> Shop.Act br bool.

Lemma send_to_first_run (gs : list (guild rt dc)) (what : payload) (w : world rt br dc) :
  send_to_first rt br dc cls gs what w
  = match first_reachable dc (DISCORD_CHANNEL_NAME cls) gs with
    | Some ch => in_chat (channel_send rt dc ch what) w
    | None => (Done tt, w)
    end.
Proof.
  induction gs as [|g rest IH]; simpl; [reflexivity|].
  unfold reachable. destruct (utils_get rt dc g (DISCORD_CHANNEL_NAME cls)) as [ch|];
    [destruct (can_send rt dc ch)|]; auto.
Qed.

Lemma send_to_first_me (gs : list (guild rt dc)) (what : payload) (w : world rt br dc) :
  me (snd (send_to_first rt br dc cls gs what w)) = me w /\
  shop (snd (send_to_first rt br dc cls gs what w)) = shop w /\
  vision (snd (send_to_first rt br dc cls gs what w)) = vision w.
Proof.
  rewrite send_to_first_run.
  destruct (first_reachable dc (DISCORD_CHANNEL_NAME cls) gs) as [ch|]; [|auto].
  unfold in_chat. destruct (channel_send rt dc ch what (room w)). auto.
Qed.















(** The same run, with what it does to the monitor: the effect of the one
    call of the monitor's check. *)
Lemma tick_active_run (w : world rt br dc) :
  monitoring_active (me w) = true ->
  monitoring_task rt br dc cls login_as_guest imported_detect_ice_butterfly w
  = (Done tt,
     mkWorld (mkBot true (start_time (me w)) (checks_performed (me w) + 1)
                (monitoring_task_running (me w)) (status_update_task_running (me w)))
       (snd (Shop.monitor_for_ice_butterfly br imported_detect_ice_butterfly (shop w)))
       (vision w) (room w)
       (journal w ++ [ev_log DEBUG "Ice Butterfly not found in potion store"])).
Proof.
  intros Hw.
  destruct (monitor_run br imported_detect_ice_butterfly (shop w)) as [s' Hs].
  rewrite Hs. unfold monitoring_task, btry.
  unfold bbind at 1. unfold get_bot at 1. cbv beta iota. rewrite Hw. cbn [negb]. cbv beta iota.
  unfold bbind at 1. unfold bret at 1. cbv beta iota. cbn [negb]. cbv beta iota.
  unfold bbind at 1. unfold in_shop at 1. rewrite Hs.
  bot_unfold. rewrite Hw. reflexivity.
Qed.


End BotFacts.

Section BotTheorems.

Import Bot.

Variable rt : runtime.
Variable br : Shop.browser.
Variable dc : discord rt.
Variable cls : Config.
Variable login_as_guest : Shop.Act br bool.
Variable imported_detect_ice_butterfly : path -> Shop.Act br bool.

(** X19. Once the session is started ([monitoring_active] is True), a run of
    the bot's loop [monitoring_task] calls the monitor's check
    [monitor_for_ice_butterfly] once and counts it: the run returns
    normally, [checks_performed] grows by one, the flag, [start_time] and
    the two loops are as before, the detector [self.image_recognition] is
    left untouched (it is never asked, and no file is read through it), and
    nothing is sent to Discord.  The monitor and the browser are left as
    that one call of the check leaves them: whatever it clicks, saves as a
    screenshot or writes to the logger it shares with the bot is its effect,
    and the bot's own code adds one line to that logger, the debug line of a
    check that found nothing.  This holds for every browser: the monitor's
    check never reports a find. *)
Theorem monitoring_tick_only_counts (w : world rt br dc) :
  monitoring_active (me w) = true ->
  monitoring_task rt br dc cls login_as_guest imported_detect_ice_butterfly w
  = (Done tt,
     mkWorld (mkBot true (start_time (me w)) (checks_performed (me w) + 1)
                (monitoring_task_running (me w)) (status_update_task_running (me w)))
       (snd (Shop.monitor_for_ice_butterfly br imported_detect_ice_butterfly (shop w)))
       (vision w) (room w)
       (journal w ++ [ev_log DEBUG "Ice Butterfly not found in potion store"])).
Proof. apply tick_active_run. Qed.


(** X21. [!stop_monitoring] halts both loops but leaves [monitoring_active]
    set, whether or not sending the summary or closing the browser raises;
    a [!start_monitoring] after it therefore only answers that monitoring is
    already active and starts no loop. *)
Theorem stop_then_start_refused (w : world rt br dc) :
  monitoring_active (me w) = true ->
  let w1 := snd (stop_monitoring rt br dc w) in
  me w1 = mkBot true (start_time (me w)) (checks_performed (me w)) false false /\
  start_monitoring rt br dc cls w1
  = in_chat (ctx_send rt dc (Text "Monitoring is already active!")) w1 /\
  me (snd (start_monitoring rt br dc cls w1)) = me w1.
Proof.
  intros Hw w1.
  assert (H1 : me w1 = mkBot true (start_time (me w)) (checks_performed (me w)) false false).
  { subst w1. unfold stop_monitoring.
    unfold bbind at 1. unfold get_bot at 1. cbv beta iota. rewrite Hw. cbn [negb].
    cbv beta iota. bot_unfold. rewrite Hw.
    destruct (start_time (me w)) as [t|]; simpl; [|reflexivity].
    destruct (ctx_send rt dc _ (room w)) as [[[]|e] c']; simpl; [|reflexivity].
    match goal with |- context [Shop.cleanup br ?s] => destruct (Shop.cleanup br s) as [[a|e] s'] end;
      reflexivity. }
  split; [exact H1|].
  assert (H2 : start_monitoring rt br dc cls w1
               = in_chat (ctx_send rt dc (Text "Monitoring is already active!")) w1).
  { unfold start_monitoring. unfold bbind at 1. unfold get_bot at 1. cbv beta iota.
    rewrite H1. reflexivity. }
  split; [exact H2|]. rewrite H2. unfold in_chat.
  destruct (ctx_send rt dc _ (room w1)). reflexivity.
Qed.

(** X22. [send_embed] (and with it the error and success messages) reaches
    at most one channel: the channel of the configured name in the first
    guild that has one which can send.  When no guild has one the message is
    dropped without any error. *)
Theorem send_embed_first_reachable (e : embed) (w : world rt br dc) :
  send_embed rt br dc cls e w
  = match first_reachable dc (DISCORD_CHANNEL_NAME cls) (guilds rt dc (room w)) with
    | Some ch => in_chat (channel_send rt dc ch (Rich e)) w
    | None => (Done tt, w)
    end.
Proof. unfold send_embed. apply send_to_first_run. Qed.

(** X23. [send_butterfly_found_message] cannot complete without a position
    or without a screenshot path.  With [position] None it raises before
    anything is sent; with a position but [screenshot_path] None (the call
    [monitoring_task] makes when the monitor has no screenshot) it always
    raises, after the attempt to send the embed, and the detector is not
    touched. *)
Theorem found_message_needs_position_and_path
  (confidence : float) (xy : point) (q : option path) (w : world rt br dc) :
  send_butterfly_found_message rt br dc cls confidence None q w = (Fail NoneTypeError, w) /\
  exists e w',
    send_butterfly_found_message rt br dc cls confidence (Some xy) None w = (Fail e, w') /\
    me w' = me w /\ shop w' = shop w /\ vision w' = vision w.
Proof.
  split; [reflexivity|].
  unfold send_butterfly_found_message.
  unfold bbind at 1. unfold bret at 1. cbv beta iota.
  unfold bbind at 1. cbv beta iota.
  unfold bbind at 1. unfold send_embed at 1.
  match goal with |- context [send_to_first rt br dc cls ?gs ?what w] =>
    pose proof (send_to_first_me rt br dc cls gs what w) as (Hm & Hs & Hv);
    destruct (send_to_first rt br dc cls gs what w) as [[[]|e] w1]
  end; simpl in Hm, Hs, Hv.
  - exists NoneTypeError, w1. split; [reflexivity|auto].
  - exists e, w1. split; [reflexivity|auto].
Qed.

End BotTheorems.

(** A started session on the simulated browser: the check drives the
    browser and logs, the bot counts. *)
Lemma monitoring_tick_only_counts_witness :
  let br := Shop.sim true in
  let dc := Bot.sim SimCV.rt [[("general"%string, true)]] in
  let imported := fun (_ : path) (w0 : Shop.world br) => (Shop.Ok true, w0) in
  Bot.monitoring_task SimCV.rt br dc (default_config "token" 0.8)
    (fun w0 => (Shop.Ok true, w0)) imported (Bot.sim_world true)
  = (Bot.Done tt,
     Bot.mkWorld (Bot.mkBot true (Some 0) (0 + 1) true true)
       (snd (Shop.monitor_for_ice_butterfly br imported (Shop.sim_world true true)))
       (Bot.vision (Bot.sim_world true)) (Bot.room (Bot.sim_world true))
       [ev_log DEBUG "Ice Butterfly not found in potion store"]).
Proof.
  intros br dc imported.
  apply (monitoring_tick_only_counts SimCV.rt br dc (default_config "token" 0.8)
           (fun w0 => (Shop.Ok true, w0)) imported (Bot.sim_world true)).
  reflexivity.
Defined.

(** Stopping a started session and starting again. *)
Lemma stop_then_start_refused_witness :
  let dc := Bot.sim SimCV.rt [[("general"%string, true)]] in
  let cls := default_config "token" 0.8 in
  let w1 := snd (Bot.stop_monitoring SimCV.rt (Shop.sim true) dc (Bot.sim_world true)) in
  Bot.me w1 = Bot.mkBot true (Some 0) 0 false false /\
  Bot.start_monitoring SimCV.rt (Shop.sim true) dc cls w1
  = Bot.in_chat (Bot.ctx_send SimCV.rt dc (Bot.Text "Monitoring is already active!")) w1 /\
  Bot.me (snd (Bot.start_monitoring SimCV.rt (Shop.sim true) dc cls w1)) = Bot.me w1.
Proof.
  intros dc cls.
  apply (stop_then_start_refused SimCV.rt (Shop.sim true) dc cls (Bot.sim_world true)).
  reflexivity.
Defined.

(** ** The log endpoint *)

Lemma lstrip_head (s : Web.str) :
  match Web.lstrip s with
  | [] => True
  | c :: _ => Web.isspace c = false
  end.
Proof.
  induction s as [|c rest IH]; simpl; [exact I|].
  destruct (Web.isspace c) eqn:Hc; [exact IH|exact Hc].
Qed.

Lemma lstrip_fixed (s : Web.str) :
  match s with [] => True | c :: _ => Web.isspace c = false end ->
  Web.lstrip s = s.
Proof. destruct s as [|c rest]; simpl; [reflexivity|]. intros ->. reflexivity. Qed.

Lemma lstrip_snoc (a : Web.str) (c : N) :
  Web.isspace c = false -> Web.lstrip (a ++ [c]) = Web.lstrip a ++ [c].
Proof.
  intros Hc. induction a as [|x rest IH]; simpl; [rewrite Hc; reflexivity|].
  destruct (Web.isspace x); [exact IH|reflexivity].
Qed.

Lemma strip_shape (s : Web.str) :
  Web.strip s = [] \/
  exists c v, Web.isspace c = false /\ Web.strip s = c :: rev v /\
              Web.lstrip (rev (Web.strip s)) = rev (Web.strip s).
Proof.
  unfold Web.strip, Web.rstrip.
  pose proof (lstrip_head s) as Hh.
  destruct (Web.lstrip s) as [|c r]; [left; reflexivity|].
  right. exists c, (Web.lstrip (rev r)). split; [exact Hh|].
  simpl rev. rewrite rev_involutive. rewrite (lstrip_snoc _ _ Hh), rev_app_distr. simpl.
  split; [reflexivity|].
  rewrite lstrip_snoc by exact Hh. f_equal.
  apply lstrip_fixed. apply lstrip_head.
Qed.

Lemma strip_idempotent (s : Web.str) : Web.strip (Web.strip s) = Web.strip s.
Proof.
  destruct (strip_shape s) as [H|(c & v & Hc & Hs & Hr)]; [rewrite H; reflexivity|].
  unfold Web.strip at 1. unfold Web.rstrip.
  rewrite (lstrip_fixed (Web.strip s)); [|rewrite Hs; exact Hc].
  rewrite Hr. apply rev_involutive.
Qed.

Lemma last_n_length {A} (n : nat) (l : list A) : (length (Web.last_n n l) <= n)%nat.
Proof. unfold Web.last_n. rewrite length_skipn. lia. Qed.

Lemma last_n_incl {A} (n : nat) (l : list A) (x : A) : In x (Web.last_n n l) -> In x l.
Proof.
  unfold Web.last_n. intros H. rewrite <- (firstn_skipn (length l - n) l).
  apply in_or_app. right. exact H.
Qed.

Lemma filter_length_le {A} (f : A -> bool) (l : list A) :
  (length (filter f l) <= length l)%nat.
Proof. induction l as [|x r IH]; simpl; [lia|]. destruct (f x); simpl; lia. Qed.

(** X24. The log endpoint never returns more than 100 entries of a readable
    log file; every entry is a line among the last 100 of the file with the
    white space stripped from both ends, is not empty, and is left as it is
    by stripping it again.  Blank lines within the last 100 are dropped
    without earlier lines taking their place: the list is empty exactly when
    the last 100 lines of the file are all blank. *)
Theorem get_logs_window (lines : list Web.str) :
  let logs := Web.get_logs (Web.Lines lines) in
  (length logs <= 100)%nat /\
  (forall e, In e logs ->
     e <> [] /\ Web.strip e = e /\
     exists line, In line (Web.last_n 100 lines) /\ In line lines /\ e = Web.strip line) /\
  (logs = [] <-> forall line, In line (Web.last_n 100 lines) -> Web.strip line = []).
Proof.
  simpl. split; [|split].
  - rewrite length_map.
    pose proof (filter_length_le (fun line => Web.truthy (Web.strip line))
                  (Web.last_n 100 lines)).
    pose proof (last_n_length 100 lines). lia.
  - intros e He. apply in_map_iff in He. destruct He as (line & <- & Hin).
    apply filter_In in Hin. destruct Hin as [Hin Ht].
    split; [|split].
    + intros E. rewrite E in Ht. discriminate.
    + apply strip_idempotent.
    + exists line. split; [exact Hin|]. split; [|reflexivity].
      apply (last_n_incl 100). exact Hin.
  - split.
    + intros E line Hin.
      destruct (Web.strip line) eqn:Hs; [reflexivity|].
      assert (Hf : In line (filter (fun l => Web.truthy (Web.strip l))
                              (Web.last_n 100 lines))).
      { apply filter_In. split; [exact Hin|]. rewrite Hs. reflexivity. }
      apply (in_map Web.strip) in Hf. rewrite E in Hf. destruct Hf.
    + intros Hall.
      assert (Hf : filter (fun l => Web.truthy (Web.strip l)) (Web.last_n 100 lines) = []).
      { induction (Web.last_n 100 lines) as [|x r IH]; simpl; [reflexivity|].
        rewrite (Hall x (or_introl eq_refl)). simpl. apply IH.
        intros line Hl. apply Hall. right. exact Hl. }
      rewrite Hf. reflexivity.
Qed.
